(** * SLR screening pipeline: a shallow embedding and its properties

    The development follows [backend/app/core/slr_pipeline.py] (the rule
    gate, the cascade loop of [screen_studies], the metrics aggregator) and
    [backend/app/core/agent_controller.py] ([explain_decision]).

    Conventions of the embedding:
    - a Python [Dict] with string keys is a [gmap string Py.value];
    - a Python [float] is an exact rational ([Q]); equalities between
      computed floats are stated with [==]. Rounding is not modelled: the
      averages, the truncated counts and the zero test of a divisor are
      those of exact arithmetic;
    - a call that may raise returns a [Py.outcome];
    - the mutable attribute [self.decisions] and the order in which the
      layers are entered are threaded through a small state monad in which
      a computation returns or raises;
    - a plugin object is known to the pipeline through its truth value
      only, which Python computes and which may be false or raise. *)

From Stdlib Require Import QArith Qminmax Qround Lqa Lia ZArith String Ascii List Bool.
From stdpp Require Import base strings gmap pretty.

Local Open Scope string_scope.

(** ** Python values and string primitives *)

Module Py.

(** The values stored in the dictionaries the pipeline reads. *)
Inductive value :=
| None_
| Str (s : string).

(** The result of a call: a returned value or a raised exception. *)
Inductive outcome (A : Type) :=
| Returns (a : A)
| Raises (e : string).
Arguments Returns {A} a.
Arguments Raises {A} e.

(** [d.get(k)]: the stored value, [None] for a missing key. *)
Definition get (d : gmap string value) (k : string) : value :=
  default None_ (d !! k).

(** [(v or '')]: the empty string replaces [None] and [''] itself. *)
Definition or_empty (v : value) : string :=
  match v with
  | None_ => ""
  | Str s => s
  end.

(** [c.lower()] for an ASCII character; any other character is left as it
    is, where [str.lower] follows the Unicode tables. *)
Definition lower_ascii (c : ascii) : ascii :=
  let n := nat_of_ascii c in
  if (65 <=? n)%nat && (n <=? 90)%nat then ascii_of_nat (n + 32) else c.

(** [s.lower()], exact when every character of [s] is ASCII. *)
Fixpoint lower (s : string) : string :=
  match s with
  | EmptyString => EmptyString
  | String c s' => String (lower_ascii c) (lower s')
  end.

(** [text.startswith(kw)]. *)
Fixpoint startswith (kw text : string) : bool :=
  match kw, text with
  | EmptyString, _ => true
  | String _ _, EmptyString => false
  | String a kw', String b text' => Ascii.eqb a b && startswith kw' text'
  end.

(** [kw in text]: substring containment. *)
Fixpoint contains (kw text : string) : bool :=
  startswith kw text ||
  match text with
  | EmptyString => false
  | String _ text' => contains kw text'
  end.

(** [any(kw in text for kw in keywords)]. *)
Fixpoint any_in (keywords : list string) (text : string) : bool :=
  match keywords with
  | [] => false
  | kw :: rest => if contains kw text then true else any_in rest text
  end.

(** [min(a, b)]: the first argument unless the second is smaller. *)
Definition min (a b : Q) : Q := if Qle_bool a b then a else b.

(** [int(q)]: truncation towards zero. *)
Definition int (q : Q) : Z := Z.quot (Qnum q) (Zpos (Qden q)).

(** [a / b] on floats. *)
Definition div (a b : Q) : outcome Q :=
  if Qeq_bool b 0 then Raises "ZeroDivisionError" else Returns (a / b)%Q.

End Py.

Abbreviation dict := (gmap string Py.value).

(** ** The data model of [slr_pipeline.py] *)

Inductive DecisionLayer := RULES | ML | BERT | HUMAN.

Record ScreeningDecision := {
  pmid : Py.value;
  title : Py.value;
  abstract : Py.value;
  decision : string;
  confidence : Q;
  layer : DecisionLayer;
  reasoning : string;
  prisma_stage : string
}.

Record SLRMetrics := {
  total_retrieved : Z;
  total_screened : Z;
  total_included : Z;
  total_excluded : Z;
  precision : Q;
  recall : Q;
  f1_score : Q;
  accuracy : Q;
  true_positives : Z;
  false_positives : Z;
  true_negatives : Z;
  false_negatives : Z
}.

(** The attributes of a [SLRScreeningPipeline] object. The keyword tables
    are association lists: the rule gate iterates over them in insertion
    order. *)
Record SLRScreeningPipeline := {
  decisions : list ScreeningDecision;
  metrics : option SLRMetrics;
  disease_keywords : list (string * list string);
  trial_keywords : list (string * list string)
}.

(** [SLRScreeningPipeline.__init__] *)
Definition create_screening_pipeline : SLRScreeningPipeline := {|
  decisions := [];
  metrics := None;
  disease_keywords :=
    [ ("type 2 diabetes",
       ["t2d"; "t2dm"; "type 2 diabetes"; "niddm"; "diabetes mellitus type 2"]);
      ("pcos", ["pcos"; "polycystic ovary syndrome"]) ];
  trial_keywords :=
    [ ("randomized controlled trial",
       ["rct"; "randomized controlled trial"; "randomized"]);
      ("clinical trial", ["clinical trial"; "trial phase"]) ]
|}.

(** ** The rule gate *)

(** [f"{title} {abstract}"] of the two lower-cased fields. *)
Definition text_of (study : dict) : string :=
  let title := Py.lower (Py.or_empty (Py.get study "title")) in
  let abstract := Py.lower (Py.or_empty (Py.get study "abstract")) in
  title ++ " " ++ abstract.

(** The loop [for group, keywords in table.items(): if any(...): match =
    True; break]. *)
Fixpoint group_match (table : list (string * list string)) (text : string) : bool :=
  match table with
  | [] => false
  | (_, keywords) :: rest =>
      if Py.any_in keywords text then true else group_match rest text
  end.

Definition make_decision (study : dict) (dec : string) (conf : Q)
    (l : DecisionLayer) (why stage : string) : ScreeningDecision := {|
  pmid := Py.get study "pmid";
  title := Py.get study "title";
  abstract := Py.get study "abstract";
  decision := dec;
  confidence := conf;
  layer := l;
  reasoning := why;
  prisma_stage := stage
|}.

(** [SLRScreeningPipeline._screen_rules] *)
Definition _screen_rules (self : SLRScreeningPipeline) (study criteria : dict)
    : option ScreeningDecision :=
  let text := text_of study in
  let disease_match := group_match (disease_keywords self) text in
  if negb disease_match then
    Some (make_decision study "EXCLUDE" 0.95 RULES
            "Does not match disease criteria" "Screening")
  else
    let trial_match := group_match (trial_keywords self) text in
    if negb trial_match then
      Some (make_decision study "EXCLUDE" 0.92 RULES
              "Not a clinical trial" "Screening")
    else
      Some (make_decision study "INCLUDE" 0.90 RULES
              "Matches disease and trial criteria" "Inclusion").

(** ** The optional layers *)

(** A scorer plugin, as handed to [screen_studies] in [ml_model] or
    [bert_model]: an object with a scoring call that may fail and with a
    truth value, the outcome of [bool(plugin)]. The truth value is [True]
    for an object that defines neither [__bool__] nor [__len__]; these
    methods can make it [False] or raise. It is taken to be the same at
    every test of the plugin. *)
Record scorer := {
  score : dict -> ScreeningDecision -> Py.outcome ScreeningDecision;
  truth : Py.outcome bool
}.

(** The truth test of [if ml_model:] and of [if bert_model and ...] for an
    optional plugin argument: [None], the default, is false. *)
Definition truth_of (model : option scorer) : Py.outcome bool :=
  match model with
  | Some plugin => truth plugin
  | None => Py.Returns false
  end.

(** [SLRScreeningPipeline._screen_ml] *)
Definition _screen_ml (self : SLRScreeningPipeline) (study : dict)
    (current_decision : ScreeningDecision) (ml_model : option scorer)
    : ScreeningDecision :=
  if String.eqb (decision current_decision) "INCLUDE" then
    make_decision study "INCLUDE" 0.92 ML
      "ML model: High likelihood of relevance" (prisma_stage current_decision)
  else current_decision.

(** [SLRScreeningPipeline._screen_bert] *)
Definition _screen_bert (self : SLRScreeningPipeline) (study : dict)
    (current_decision : ScreeningDecision) (bert_model : option scorer)
    : ScreeningDecision :=
  current_decision.

(** ** The metrics aggregator *)

Definition count_decision (tag : string) (ds : list ScreeningDecision) : Z :=
  Z.of_nat (List.length (List.filter (fun d => String.eqb (decision d) tag) ds)).

(** [sum(d.confidence for d in self.decisions)] *)
Definition sum_confidence (ds : list ScreeningDecision) : Q :=
  fold_left (fun acc d => (acc + confidence d)%Q) ds 0%Q.

(** [sum(...) / len(self.decisions) if self.decisions else 0]: the division
    is guarded by the test, so it cannot raise. *)
Definition avg_confidence (ds : list ScreeningDecision) : Q :=
  match ds with
  | [] => 0%Q
  | _ => (sum_confidence ds / inject_Z (Z.of_nat (List.length ds)))%Q
  end.

Definition zero_metrics : SLRMetrics := {|
  total_retrieved := 0; total_screened := 0;
  total_included := 0; total_excluded := 0;
  precision := 0; recall := 0; f1_score := 0; accuracy := 0;
  true_positives := 0; false_positives := 0;
  true_negatives := 0; false_negatives := 0
|}.

(** [SLRScreeningPipeline._compute_metrics] *)
Definition _compute_metrics (self : SLRScreeningPipeline) : Py.outcome SLRMetrics :=
  match decisions self with
  | [] => Py.Returns zero_metrics
  | _ =>
      let included := count_decision "INCLUDE" (decisions self) in
      let excluded := count_decision "EXCLUDE" (decisions self) in
      let total := (included + excluded)%Z in
      let avg := avg_confidence (decisions self) in
      match Py.div (2 * avg * (avg + 0.05))%Q (avg + avg + 0.05)%Q with
      | Py.Raises e => Py.Raises e
      | Py.Returns f1 =>
          Py.Returns {|
            total_retrieved := total;
            total_screened := total;
            total_included := included;
            total_excluded := excluded;
            precision := avg;
            recall := Py.min 0.97 (avg + 0.05);
            f1_score := f1;
            accuracy := avg;
            true_positives := Py.int (inject_Z included * avg);
            false_positives := Py.int (inject_Z excluded * (1 - avg));
            true_negatives := Py.int (inject_Z excluded * avg);
            false_negatives := Py.int (inject_Z included * (1 - avg))
          |}
      end
  end.

(** ** The cascade loop *)

(** The layer methods entered during a run, oldest first. *)
Inductive call :=
| Enter_rules (study : dict)
| Enter_ml (study : dict)
| Enter_bert (study : dict).

(** The pipeline object together with the record of the calls made on it. *)
Record world := {
  this : SLRScreeningPipeline;
  calls : list call
}.

(** A computation on the pipeline: it changes the pipeline and the record
    of calls, and returns or raises. *)
Definition M (A : Type) : Type := world -> Py.outcome A * world.

#[global] Instance M_ret : MRet M := fun A a w => (Py.Returns a, w).

#[global] Instance M_bind : MBind M :=
  fun A B k c w =>
    match c w with
    | (Py.Returns a, w') => k a w'
    | (Py.Raises e, w') => (Py.Raises e, w')
    end.

(** The outcome of an expression that does not touch the pipeline. *)
Definition evaluate {A} (o : Py.outcome A) : M A := fun w => (o, w).

Definition get_self : M SLRScreeningPipeline := fun w => (Py.Returns (this w), w).

Definition entered (c : call) : M unit :=
  fun w => (Py.Returns tt, {| this := this w; calls := calls w ++ [c] |}).

(** The object [self] after the assignment [self.decisions = ds]. *)
Definition with_decisions (self : SLRScreeningPipeline)
    (ds : list ScreeningDecision) : SLRScreeningPipeline := {|
  decisions := ds;
  metrics := metrics self;
  disease_keywords := disease_keywords self;
  trial_keywords := trial_keywords self
|}.

(** [self.decisions = ds] *)
Definition set_decisions (ds : list ScreeningDecision) : M unit :=
  fun w => (Py.Returns tt, {| this := with_decisions (this w) ds; calls := calls w |}).

(** [self.decisions.append(d)] *)
Definition append_decision (d : ScreeningDecision) : M unit :=
  self ← get_self;
  set_decisions (decisions self ++ [d]).

Definition call_screen_rules (study criteria : dict) : M (option ScreeningDecision) :=
  entered (Enter_rules study) ;;
  self ← get_self;
  mret (_screen_rules self study criteria).

Definition call_screen_ml (study : dict) (d : ScreeningDecision)
    (ml_model : option scorer) : M ScreeningDecision :=
  entered (Enter_ml study) ;;
  self ← get_self;
  mret (_screen_ml self study d ml_model).

Definition call_screen_bert (study : dict) (d : ScreeningDecision)
    (bert_model : option scorer) : M ScreeningDecision :=
  entered (Enter_bert study) ;;
  self ← get_self;
  mret (_screen_bert self study d bert_model).

(** The body of [for study in studies:]. A dataclass instance is truthy, so
    [not decision] holds for [None] only and the final [if decision:] always
    succeeds. The truth tests of the two plugins are evaluated for a record
    that the rule gate lets through, the one of [bert_model] before the
    comparison it is joined with by [and]. *)
Definition screen_study (criteria : dict) (ml_model bert_model : option scorer)
    (study : dict) : M unit :=
  r ← call_screen_rules study criteria;
  match r with
  | None => mret tt
  | Some d0 =>
      if String.eqb (decision d0) "EXCLUDE" then mret tt
      else
        use_ml ← evaluate (truth_of ml_model);
        d1 ← (if use_ml : bool
              then call_screen_ml study d0 ml_model
              else mret d0);
        use_bert ← evaluate (truth_of bert_model);
        d2 ← (if (use_bert : bool) && negb (String.eqb (decision d1) "EXCLUDE")
              then call_screen_bert study d1 bert_model
              else mret d1);
        append_decision d2
  end.

Fixpoint for_each {A} (body : A -> M unit) (l : list A) : M unit :=
  match l with
  | [] => mret tt
  | x :: rest => body x ;; for_each body rest
  end.

(** [SLRScreeningPipeline.screen_studies] *)
Definition screen_studies (studies : list dict) (criteria : dict)
    (ml_model bert_model : option scorer)
    : M (list ScreeningDecision * SLRMetrics) :=
  set_decisions [] ;;
  for_each (screen_study criteria ml_model bert_model) studies ;;
  self ← get_self;
  m ← evaluate (_compute_metrics self);
  mret (decisions self, m).

(** A run on a freshly built pipeline. *)
Definition fresh : world := {| this := create_screening_pipeline; calls := [] |}.

(** ** [agent_controller.py]: the explanation of a decision *)

Record Explanation := {
  study_id : string;
  e_decision : string;
  e_layer : string;
  e_reasoning : string;
  e_confidence : Q;
  evidence : list string
}.

(** [SLRAgentController.explain_decision] *)
Definition explain_decision (study_id decision layer : string)
    : Py.outcome Explanation :=
  Py.Returns {|
    study_id := study_id;
    e_decision := decision;
    e_layer := layer;
    e_reasoning :=
      "Study " ++ study_id ++ " was " ++ decision ++ " at " ++ layer ++ " layer";
    e_confidence := 0.92;
    evidence := []
  |}.

(** ** Sample inputs *)

Definition mk_study (id t a : string) : dict :=
  <["pmid" := Py.Str id]> (<["title" := Py.Str t]> (<["abstract" := Py.Str a]> ∅)).

Definition study_rct : dict := mk_study "1" "RCT of type 2 diabetes treatment" "".
Definition study_cooking : dict := mk_study "2" "A cooking article" "".
Definition study_pcos : dict := mk_study "3" "Randomized trial in PCOS" "".

Definition criteria_t2d : dict :=
  <["disease" := Py.Str "type 2 diabetes"]>
    (<["study_type" := Py.Str "randomized controlled trial"]> ∅).

(** A plugin whose scoring call always fails; as an object without
    [__bool__] and [__len__] it tests true. *)
Definition failing_scorer : scorer :=
  {| score := fun _ _ => Py.Raises "ScoringFailure"; truth := Py.Returns true |}.

(** A plugin that scores by returning the decision it is given. *)
Definition echo_scorer : scorer :=
  {| score := fun _ d => Py.Returns d; truth := Py.Returns true |}.

(** A plugin of length zero, which tests false. *)
Definition empty_scorer : scorer :=
  {| score := fun _ d => Py.Returns d; truth := Py.Returns false |}.

(** A plugin whose truth test raises. *)
Definition untestable_scorer : scorer :=
  {| score := fun _ d => Py.Returns d; truth := Py.Raises "TypeError" |}.


(** * Notions used in the statements *)

(** [kw] occurs in [text]. *)
Definition substring (kw text : string) : Prop :=
  ∃ pre post, text = pre ++ kw ++ post.

(** Some keyword of some group of [table] occurs in [text]. *)
Definition mentions (table : list (string * list string)) (text : string) : Prop :=
  ∃ group keywords kw,
    (group, keywords) ∈ table ∧ kw ∈ keywords ∧ substring kw text.

(** The gate as the specification words it: the keyword group whose
    canonical name is [criteria.disease], every group when the disease is
    left unspecified. *)
Definition spec_disease_groups (self : SLRScreeningPipeline) (criteria : dict)
    : list (string * list string) :=
  match Py.get criteria "disease" with
  | Py.Str d =>
      List.filter (fun g => String.eqb (fst g) (Py.lower d)) (disease_keywords self)
  | Py.None_ => disease_keywords self
  end.

(** The disease gate of [_screen_rules] lets the record through: the
    decision returned is not the disease exclusion. *)
Definition passes_disease_gate (self : SLRScreeningPipeline)
    (study criteria : dict) : Prop :=
  ∃ d, _screen_rules self study criteria = Some d
       ∧ reasoning d ≠ "Does not match disease criteria".

(** The rule gate includes the record. *)
Definition rule_includes (self : SLRScreeningPipeline) (criteria study : dict) : bool :=
  match _screen_rules self study criteria with
  | Some d => String.eqb (decision d) "INCLUDE"
  | None => false
  end.

(** The decision of a run for a record that the rule gate includes: the
    one the ML layer puts in place of the rule decision when it is
    entered, the rule decision otherwise. *)
Definition decision_for (use_ml : bool) (study : dict) : ScreeningDecision :=
  if use_ml
  then make_decision study "INCLUDE" 0.92 ML
         "ML model: High likelihood of relevance" "Inclusion"
  else make_decision study "INCLUDE" 0.90 RULES
         "Matches disease and trial criteria" "Inclusion".

(** The two truth tests made for a record that the rule gate includes,
    the one of the ML plugin first. *)
Definition tests (ml_model bert_model : option scorer) : Py.outcome (bool * bool) :=
  match truth_of ml_model with
  | Py.Raises e => Py.Raises e
  | Py.Returns use_ml =>
      match truth_of bert_model with
      | Py.Raises e => Py.Raises e
      | Py.Returns use_bert => Py.Returns (use_ml, use_bert)
      end
  end.

(** The layer methods one record enters when both truth tests return. *)
Definition record_calls (self : SLRScreeningPipeline) (criteria : dict)
    (use_ml use_bert : bool) (study : dict) : list call :=
  Enter_rules study ::
  (if rule_includes self criteria study
   then (if use_ml then [Enter_ml study] else [])
        ++ (if use_bert then [Enter_bert study] else [])
   else []).

(** The layer methods entered in a run that a raising truth test cuts
    short at the first record that the rule gate includes. *)
Fixpoint aborted_calls (self : SLRScreeningPipeline) (criteria : dict)
    (ml_model : option scorer) (studies : list dict) : list call :=
  match studies with
  | [] => []
  | study :: rest =>
      Enter_rules study ::
      (if rule_includes self criteria study
       then match truth_of ml_model with
            | Py.Returns true => [Enter_ml study]
            | _ => []
            end
       else aborted_calls self criteria ml_model rest)
  end.

(** The decision [d] is one taken for the record [study]: it repeats the
    identifier, the title and the abstract stored in the record. *)
Definition decides (study : dict) (d : ScreeningDecision) : Prop :=
  pmid d = Py.get study "pmid"
  ∧ title d = Py.get study "title"
  ∧ abstract d = Py.get study "abstract".

(** The pipeline holds no decision. *)
Definition no_decision (self : SLRScreeningPipeline) : bool :=
  match decisions self with
  | [] => true
  | _ :: _ => false
  end.

(** The rule gate with the lower-casing as a parameter: [_screen_rules]
    with [lower] in the place of [str.lower]. *)
Definition text_with (lower : string -> string) (study : dict) : string :=
  let title := lower (Py.or_empty (Py.get study "title")) in
  let abstract := lower (Py.or_empty (Py.get study "abstract")) in
  title ++ " " ++ abstract.

Definition screen_rules_with (lower : string -> string)
    (self : SLRScreeningPipeline) (study criteria : dict)
    : option ScreeningDecision :=
  let text := text_with lower study in
  let disease_match := group_match (disease_keywords self) text in
  if negb disease_match then
    Some (make_decision study "EXCLUDE" 0.95 RULES
            "Does not match disease criteria" "Screening")
  else
    let trial_match := group_match (trial_keywords self) text in
    if negb trial_match then
      Some (make_decision study "EXCLUDE" 0.92 RULES
              "Not a clinical trial" "Screening")
    else
      Some (make_decision study "INCLUDE" 0.90 RULES
              "Matches disease and trial criteria" "Inclusion").

(** Every character of the string is ASCII. *)
Fixpoint is_ascii (s : string) : bool :=
  match s with
  | EmptyString => true
  | String c s' => (nat_of_ascii c <? 128)%nat && is_ascii s'
  end.

(** The invariant of a decision: a confidence between 0 and 1. *)
Definition valid_confidence (d : ScreeningDecision) : bool :=
  Qle_bool 0 (confidence d) && Qle_bool (confidence d) 1.

Definition well_formed (ds : list ScreeningDecision) : Prop :=
  forallb valid_confidence ds = true.

(** The average confidence, as the arithmetic mean of the confidences. *)
Definition mean_confidence (ds : list ScreeningDecision) : Q :=
  (fold_right Qplus 0 (map confidence ds) / inject_Z (Z.of_nat (List.length ds)))%Q.

(** Two metrics values with equal counts and equal rates. *)
Definition metrics_equiv (m1 m2 : SLRMetrics) : Prop :=
  total_retrieved m1 = total_retrieved m2
  ∧ total_screened m1 = total_screened m2
  ∧ total_included m1 = total_included m2
  ∧ total_excluded m1 = total_excluded m2
  ∧ (precision m1 == precision m2)%Q
  ∧ (recall m1 == recall m2)%Q
  ∧ (f1_score m1 == f1_score m2)%Q
  ∧ (accuracy m1 == accuracy m2)%Q
  ∧ true_positives m1 = true_positives m2
  ∧ false_positives m1 = false_positives m2
  ∧ true_negatives m1 = true_negatives m2
  ∧ false_negatives m1 = false_negatives m2.

(** The ground-truth mode as the specification words it (the source has no
    such mode): every decision is paired with a gold label, the four counts
    come from the confusion matrix and the rates from the counts; a rate
    whose denominator is zero is 0, and so is every field on empty input. *)
Definition confusion (predicted gold : string) (ps : list (ScreeningDecision * string)) : Z :=
  Z.of_nat (List.length (List.filter
    (fun p => String.eqb (decision (fst p)) predicted && String.eqb (snd p) gold) ps)).

Definition ratio (a b : Z) : Q :=
  if (b =? 0)%Z then 0%Q else (inject_Z a / inject_Z b)%Q.

Definition spec_ground_truth_metrics (ps : list (ScreeningDecision * string)) : SLRMetrics :=
  match ps with
  | [] => zero_metrics
  | _ =>
      let tp := confusion "INCLUDE" "INCLUDE" ps in
      let fp := confusion "INCLUDE" "EXCLUDE" ps in
      let tn := confusion "EXCLUDE" "EXCLUDE" ps in
      let fn := confusion "EXCLUDE" "INCLUDE" ps in
      let included := count_decision "INCLUDE" (map fst ps) in
      let excluded := count_decision "EXCLUDE" (map fst ps) in
      let p := ratio tp (tp + fp) in
      let r := ratio tp (tp + fn) in
      {| total_retrieved := included + excluded;
         total_screened := included + excluded;
         total_included := included;
         total_excluded := excluded;
         precision := p;
         recall := r;
         f1_score := if Qeq_bool (p + r) 0 then 0%Q else (2 * p * r / (p + r))%Q;
         accuracy := ratio (tp + tn) (included + excluded);
         true_positives := tp;
         false_positives := fp;
         true_negatives := tn;
         false_negatives := fn |}
  end.

(** A pipeline object holding two decisions. *)
Definition two_decisions : SLRScreeningPipeline :=
  with_decisions create_screening_pipeline
    [ make_decision study_rct "INCLUDE" 0.90 RULES
        "Matches disease and trial criteria" "Inclusion";
      make_decision study_cooking "EXCLUDE" 0.95 RULES
        "Does not match disease criteria" "Screening" ].

(** A decision with the largest confidence the data model allows. *)
Definition certain_decision : ScreeningDecision :=
  make_decision study_rct "INCLUDE" 1 RULES "Matches disease and trial criteria" "Inclusion".

(** * Further parts of the code *)

(** ** [slr_pipeline.py]: the export of the decisions *)

(** The values of the dictionaries built by [get_decisions]. *)
Inductive exported :=
| E_none
| E_str (s : string)
| E_float (q : Q).

Definition export (v : Py.value) : exported :=
  match v with
  | Py.None_ => E_none
  | Py.Str s => E_str s
  end.

(** [DecisionLayer.value] *)
Definition layer_value (l : DecisionLayer) : string :=
  match l with
  | RULES => "rules"
  | ML => "ml"
  | BERT => "bert"
  | HUMAN => "human"
  end.

(** The dictionary literal of [get_decisions] for one decision. *)
Definition decision_dict (d : ScreeningDecision) : gmap string exported :=
  <["pmid" := export (pmid d)]>
    (<["title" := export (title d)]>
      (<["decision" := E_str (decision d)]>
        (<["confidence" := E_float (confidence d)]>
          (<["layer" := E_str (layer_value (layer d))]>
            (<["reasoning" := E_str (reasoning d)]> ∅))))).

(** [SLRScreeningPipeline.get_decisions] *)
Definition get_decisions (self : SLRScreeningPipeline) : list (gmap string exported) :=
  map decision_dict (decisions self).

(** ** Notions used in the further statements *)

(** An ASCII capital letter. *)
Definition is_upper (c : ascii) : bool :=
  let n := nat_of_ascii c in (65 <=? n)%nat && (n <=? 90)%nat.

Fixpoint has_upper (s : string) : bool :=
  match s with
  | EmptyString => false
  | String c s' => is_upper c || has_upper s'
  end.

Definition is_enter_rules (c : call) : bool :=
  match c with Enter_rules _ => true | _ => false end.

Definition is_enter_ml (c : call) : bool :=
  match c with Enter_ml _ => true | _ => false end.

Definition is_enter_bert (c : call) : bool :=
  match c with Enter_bert _ => true | _ => false end.

(** A decision whose label is one of the two the aggregator counts. *)
Definition counted (d : ScreeningDecision) : bool :=
  String.eqb (decision d) "INCLUDE" || String.eqb (decision d) "EXCLUDE".

(** A pipeline whose disease table is written with capital letters. *)
Definition capital_pipeline : SLRScreeningPipeline := {|
  decisions := [];
  metrics := None;
  disease_keywords := [("PCOS", ["PCOS"; "Polycystic ovary syndrome"])];
  trial_keywords := trial_keywords create_screening_pipeline
|}.

(** A pipeline whose disease table holds an empty keyword. *)
Definition lax_pipeline : SLRScreeningPipeline := {|
  decisions := [];
  metrics := None;
  disease_keywords := [("any", [""])];
  trial_keywords := trial_keywords create_screening_pipeline
|}.

(** Every keyword of the table holds a capital letter. *)
Definition all_capital (table : list (string * list string)) : bool :=
  forallb (fun g => forallb has_upper (snd g)) table.

(** Some group of the table holds the empty keyword. *)
Definition has_empty_keyword (table : list (string * list string)) : bool :=
  existsb (fun g => existsb (String.eqb "") (snd g)) table.

(** The confidence of every decision of a run. *)
Definition run_confidence (use_ml : bool) : Q :=
  if use_ml then 0.92%Q else 0.90%Q.

(** An ML decision that a later layer has turned into an exclusion. *)
Definition excluded_by_hand : ScreeningDecision :=
  make_decision study_rct "EXCLUDE" 0.6 HUMAN "Retracted" "Screening".

(** The keys of an exported decision. *)
Definition exported_keys : gset string :=
  {[ "pmid"; "title"; "decision"; "confidence"; "layer"; "reasoning" ]}.

(** A pipeline object holding one decision of confidence -0.025. *)
Definition negative_confidence : SLRScreeningPipeline :=
  with_decisions create_screening_pipeline
    [make_decision study_rct "INCLUDE" (- 0.025) HUMAN "" "Inclusion"].

(** A pipeline object holding a decision with a label of its own. *)
Definition with_maybe : SLRScreeningPipeline :=
  with_decisions create_screening_pipeline
    [ make_decision study_rct "INCLUDE" 0.90 RULES "" "Inclusion";
      make_decision study_pcos "MAYBE" 0.5 HUMAN "" "Screening" ].

(** A pipeline object holding three inclusions of confidence 0.5. *)
Definition three_halves : SLRScreeningPipeline :=
  with_decisions create_screening_pipeline
    [ make_decision study_rct "INCLUDE" 0.5 RULES "" "Inclusion";
      make_decision study_pcos "INCLUDE" 0.5 RULES "" "Inclusion";
      make_decision study_cooking "INCLUDE" 0.5 RULES "" "Inclusion" ].



(** ** [agent_controller.py]: the conversational controller *)

Module Agent.

Inductive ConversationState :=
| IDLE
| CRITERIA_INTAKE
| VALIDATING
| EXECUTING
| COMPLETED
| ERROR.

Record SLRCriteria := {
  disease : option string;
  population : option string;
  intervention : option string;
  comparison : option string;
  outcome : option string;
  study_type : option string;
  publication_years : option (Z * Z);
  language : string;
  custom_query : option string
}.

(** [SLRCriteria()] *)
Definition default_criteria : SLRCriteria := {|
  disease := None; population := None; intervention := None;
  comparison := None; outcome := None; study_type := None;
  publication_years := None; language := "English"; custom_query := None
|}.

(** The dictionary [{"criteria": ..., "job_id": ...}] sent with a started job. *)
Record job_data := {
  data_criteria : SLRCriteria;
  data_job_id : option string
}.

Record AgentMessage := {
  role : string;
  content : string;
  data : option job_data;
  action : option string;
  job_id : option string
}.

(** The attributes of a [SLRAgentController] that its methods read or
    write ([pubmed_api] is never used by them). *)
Record SLRAgentController := {
  state : ConversationState;
  criteria : SLRCriteria;
  conversation_history : list AgentMessage;
  current_job_id : option string
}.

(** [SLRAgentController.__init__] *)
Definition init : SLRAgentController := {|
  state := IDLE;
  criteria := default_criteria;
  conversation_history := [];
  current_job_id := None
|}.

(** Truth value of an optional string: [None] and [''] are false. *)
Definition truthy (o : option string) : bool :=
  match o with
  | None => false
  | Some s => negb (String.eqb s "")
  end.

(** An optional string inside an f-string. *)
Definition fmt (o : option string) : string :=
  match o with
  | None => "None"
  | Some s => s
  end.

(** The line break of a string literal. *)
Definition nl : string := String (ascii_of_nat 10) "".

Definition C (A : Type) : Type := SLRAgentController -> A * SLRAgentController.

#[global] Instance C_ret : MRet C := fun A a self => (a, self).

#[global] Instance C_bind : MBind C :=
  fun A B k c self => let (a, self') := c self in k a self'.

Definition get_self : C SLRAgentController := fun self => (self, self).

(** [self.state = s] *)
Definition set_state (s : ConversationState) : C unit :=
  fun self =>
    (tt, {| state := s; criteria := criteria self;
            conversation_history := conversation_history self;
            current_job_id := current_job_id self |}).

Definition with_disease (c : SLRCriteria) (d : string) : SLRCriteria := {|
  disease := Some d; population := population c; intervention := intervention c;
  comparison := comparison c; outcome := outcome c; study_type := study_type c;
  publication_years := publication_years c; language := language c;
  custom_query := custom_query c
|}.

Definition with_study_type (c : SLRCriteria) (t : string) : SLRCriteria := {|
  disease := disease c; population := population c; intervention := intervention c;
  comparison := comparison c; outcome := outcome c; study_type := Some t;
  publication_years := publication_years c; language := language c;
  custom_query := custom_query c
|}.

Definition set_criteria (c : SLRCriteria) : C unit :=
  fun self =>
    (tt, {| state := state self; criteria := c;
            conversation_history := conversation_history self;
            current_job_id := current_job_id self |}).

(** [self.criteria.disease = d] *)
Definition set_disease (d : string) : C unit :=
  self ← get_self; set_criteria (with_disease (criteria self) d).

(** [self.criteria.study_type = t] *)
Definition set_study_type (t : string) : C unit :=
  self ← get_self; set_criteria (with_study_type (criteria self) t).

(** [self.current_job_id = j] *)
Definition set_job_id (j : option string) : C unit :=
  fun self =>
    (tt, {| state := state self; criteria := criteria self;
            conversation_history := conversation_history self;
            current_job_id := j |}).

(** [SLRAgentController._create_message] *)
Definition _create_message (role content : string) (data : option job_data)
    (action : option string) : C AgentMessage :=
  fun self =>
    let msg := {| role := role; content := content; data := data;
                  action := action; job_id := current_job_id self |} in
    (msg, {| state := state self; criteria := criteria self;
             conversation_history := conversation_history self ++ [msg];
             current_job_id := current_job_id self |}).

(** The texts of the answers. *)

(** The f-string of [start_slr_job]. *)
Definition start_response (self : SLRAgentController) : string :=
  "SLR Job initiated successfully!" ++ nl
  ++ "        " ++ nl
  ++ "Job ID: " ++ fmt (current_job_id self) ++ nl
  ++ "Disease: " ++ fmt (disease (criteria self)) ++ nl
  ++ "Study Type: " ++ fmt (study_type (criteria self)) ++ nl
  ++ nl
  ++ "The system is now:" ++ nl
  ++ "1. Querying PubMed with your criteria" ++ nl
  ++ "2. Fetching study metadata" ++ nl
  ++ "3. Deduplicating records" ++ nl
  ++ "4. Screening abstracts" ++ nl
  ++ "5. Computing PRISMA metrics" ++ nl
  ++ nl
  ++ "You'll receive results with:" ++ nl
  ++ "- Included/Excluded studies" ++ nl
  ++ "- Precision, Recall, F1 metrics" ++ nl
  ++ "- Downloadable Excel reports" ++ nl
  ++ nl
  ++ "Check status anytime with: 'status'".

(** The answers of [_handle_criteria_input]. *)
Definition ask_study_type : string :=
  "I understand you want to search for Type 2 Diabetes studies. " ++ nl ++ nl
  ++ "Please specify:" ++ nl
  ++ "2. Study Type (e.g., 'randomized controlled trial', 'clinical trial')".

Definition using_study_type (self : SLRAgentController) : string :=
  "Using study type: " ++ fmt (study_type (criteria self)) ++ nl ++ nl
  ++ "Ready to start SLR for " ++ fmt (disease (criteria self))
  ++ "? Reply 'yes' to begin.".

Definition please_confirm : string := "Please confirm to proceed with SLR job.".

(** The answer of [_handle_initial_input]. *)
Definition ask_disease : string :=
  "I'll help you run a Systematic Literature Review. Let me clarify your criteria."
  ++ nl ++ nl ++ "Please provide:" ++ nl
  ++ "1. Disease/Condition (e.g., 'Type 2 Diabetes', 'PCOS')".

(** The answers of [_handle_status_query]. *)
Definition status_report (self : SLRAgentController) : string :=
  "Job " ++ fmt (current_job_id self) ++ " Status: PROCESSING" ++ nl
  ++ "                " ++ nl
  ++ "Progress:" ++ nl
  ++ "- PubMed search: COMPLETE (3,214 studies found)" ++ nl
  ++ "- Abstract fetch: IN PROGRESS (2,100/3,214)" ++ nl
  ++ "- Deduplication: PENDING" ++ nl
  ++ "- Screening: PENDING" ++ nl
  ++ "- Metrics: PENDING" ++ nl
  ++ nl
  ++ "Estimated time: 2-3 minutes".

Definition not_yet_available (self : SLRAgentController) : string :=
  "Results not yet available. Job " ++ fmt (current_job_id self)
  ++ " still processing.".

Definition ask_status : string := "Please ask about 'status' or 'results'.".

(** The answer of [process_user_input] in a state it does not handle. *)
Definition unexpected_state : string := "Session in unexpected state. Please restart.".

Section Jobs.

(** [hash(str(self.criteria))]: the hash of the printed criteria, which
    Python salts anew in every process. *)
Variable hash_criteria : SLRCriteria -> Z.

(** [SLRAgentController.start_slr_job] *)
Definition start_slr_job : C AgentMessage :=
  set_state EXECUTING ;;
  self ← get_self;
  set_job_id (Some ("slr_" ++ pretty (hash_criteria (criteria self) `mod` 10000)%Z)) ;;
  self ← get_self;
  let response := start_response self in
  _create_message "assistant" response
    (Some {| data_criteria := criteria self; data_job_id := current_job_id self |})
    (Some "start_job").

(** [SLRAgentController._handle_criteria_input] *)
Definition _handle_criteria_input (user_input : string) : C AgentMessage :=
  let lower_input := Py.lower user_input in
  (if Py.contains "diabetes" lower_input || Py.contains "t2d" lower_input
   then set_disease (if Py.contains "type 2" lower_input
                     then "Type 2 Diabetes" else "Diabetes")
   else if Py.contains "pcos" lower_input then set_disease "PCOS"
   else mret tt) ;;
  self ← get_self;
  if negb (truthy (disease (criteria self))) then
    _create_message "assistant" ask_study_type None None
  else if negb (truthy (study_type (criteria self))) then
    set_study_type "randomized controlled trial" ;;
    self ← get_self;
    _create_message "assistant" (using_study_type self) None None
  else if Py.contains "yes" lower_input || Py.contains "confirm" lower_input
          || Py.contains "start" lower_input
  then start_slr_job
  else _create_message "assistant" please_confirm None None.

(** [SLRAgentController._handle_initial_input] *)
Definition _handle_initial_input (user_input : string) : C AgentMessage :=
  set_state CRITERIA_INTAKE ;;
  if Py.any_in ["start"; "begin"; "run"; "slr"; "search"] (Py.lower user_input)
  then
    _create_message "assistant" ask_disease None None
  else _handle_criteria_input user_input.

(** [SLRAgentController._handle_status_query] *)
Definition _handle_status_query (user_input : string) : C AgentMessage :=
  self ← get_self;
  if Py.contains "status" (Py.lower user_input) then
    _create_message "assistant" (status_report self) None None
  else if Py.contains "result" (Py.lower user_input)
          || Py.contains "download" (Py.lower user_input)
  then
    _create_message "assistant" (not_yet_available self) None None
  else _create_message "assistant" ask_status None None.

(** [SLRAgentController.process_user_input] *)
Definition process_user_input (user_input : string) : C AgentMessage :=
  self ← get_self;
  match state self with
  | IDLE => _handle_initial_input user_input
  | CRITERIA_INTAKE => _handle_criteria_input user_input
  | EXECUTING => _handle_status_query user_input
  | _ => _create_message "assistant" unexpected_state None None
  end.

(** The controller after a sequence of user inputs. *)
Fixpoint converse (inputs : list string) (self : SLRAgentController)
    : SLRAgentController :=
  match inputs with
  | [] => self
  | user_input :: rest => converse rest (snd (process_user_input user_input self))
  end.

End Jobs.

(** [SLRAgentController.reset_session] *)
Definition reset_session : C AgentMessage :=
  fun self =>
    _create_message "assistant" "Session reset. Start a new SLR job with 'start'"
      None None
      {| state := IDLE; criteria := default_criteria;
         conversation_history := []; current_job_id := None |}.

(** A hash function of the criteria, for the sample runs. *)
Definition sample_hash (c : SLRCriteria) : Z :=
  Z.of_nat (String.length (fmt (disease c))) * 7919 - 50000.

End Agent.


(** ** Notions used in the statements about the controller *)

(** What holds of a controller in every conversation: only three of the
    six states occur, the criteria hold at most a disease out of three and
    the one study type, and a job id is set exactly while a job runs. *)
Definition sound (self : Agent.SLRAgentController) : Prop :=
  (Agent.state self = Agent.IDLE ∨ Agent.state self = Agent.CRITERIA_INTAKE
   ∨ Agent.state self = Agent.EXECUTING)
  ∧ (Agent.disease (Agent.criteria self) = None
     ∨ Agent.disease (Agent.criteria self) = Some "Type 2 Diabetes"
     ∨ Agent.disease (Agent.criteria self) = Some "Diabetes"
     ∨ Agent.disease (Agent.criteria self) = Some "PCOS")
  ∧ (Agent.study_type (Agent.criteria self) = None
     ∨ Agent.study_type (Agent.criteria self) = Some "randomized controlled trial")
  ∧ Agent.population (Agent.criteria self) = None
  ∧ Agent.intervention (Agent.criteria self) = None
  ∧ Agent.comparison (Agent.criteria self) = None
  ∧ Agent.outcome (Agent.criteria self) = None
  ∧ Agent.publication_years (Agent.criteria self) = None
  ∧ Agent.language (Agent.criteria self) = "English"
  ∧ Agent.custom_query (Agent.criteria self) = None
  ∧ (Agent.state self = Agent.EXECUTING ↔ Agent.current_job_id self ≠ None)
  ∧ (Agent.state self = Agent.EXECUTING →
       Agent.disease (Agent.criteria self) ≠ None
       ∧ Agent.study_type (Agent.criteria self) = Some "randomized controlled trial").

(** The controller with earlier messages put in front of its history. *)
Definition after_history (earlier : list Agent.AgentMessage)
    (self : Agent.SLRAgentController) : Agent.SLRAgentController := {|
  Agent.state := Agent.state self;
  Agent.criteria := Agent.criteria self;
  Agent.conversation_history := earlier ++ Agent.conversation_history self;
  Agent.current_job_id := Agent.current_job_id self
|}.

(** The input says yes, confirm or start, in any case. *)
Definition confirms (user_input : string) : bool :=
  Py.contains "yes" (Py.lower user_input)
  || Py.contains "confirm" (Py.lower user_input)
  || Py.contains "start" (Py.lower user_input).

(** A controller in the middle of a conversation and one stuck in a state
    that no method sets. *)
Definition ready_controller : Agent.SLRAgentController :=
  Agent.converse Agent.sample_hash ["type 2 diabetes"] Agent.init.

Definition error_controller : Agent.SLRAgentController := {|
  Agent.state := Agent.ERROR;
  Agent.criteria := Agent.default_criteria;
  Agent.conversation_history := [];
  Agent.current_job_id := None
|}.



(** ** [pubmed_api.py]: the batches of [_fetch_studies] *)

Module PubMed.

(** The indices of [range(0, n, step)] for a positive step, by a counter
    that bounds the number of indices. *)
Fixpoint range_from (fuel : nat) (i n step : Z) : list Z :=
  match fuel with
  | O => []
  | S fuel' => if (i <? n)%Z then i :: range_from fuel' (i + step)%Z n step else []
  end.

(** [range(0, n, step)] for [n >= 0]: a zero step raises, a negative step
    gives no index. *)
Definition range (n step : Z) : Py.outcome (list Z) :=
  if (step =? 0)%Z then Py.Raises "ValueError"
  else if (step <? 0)%Z then Py.Returns []
  else Py.Returns (range_from (Z.to_nat n) 0 n step).

(** [uids[i:i + batch_size]] for [i >= 0] and a positive [batch_size]. *)
Definition slice (uids : list string) (i batch_size : Z) : list string :=
  take (Z.to_nat batch_size) (drop (Z.to_nat i) uids).

(** The values of [batch] in the loop
    [for i in range(0, len(uids), self.batch_size): batch = uids[i:i + self.batch_size]]
    of [_fetch_studies], in order. *)
Definition batches (batch_size : Z) (uids : list string)
    : Py.outcome (list (list string)) :=
  match range (Z.of_nat (List.length uids)) batch_size with
  | Py.Raises e => Py.Raises e
  | Py.Returns indices => Py.Returns (map (fun i => slice uids i batch_size) indices)
  end.

End PubMed.


(** * Properties *)

(** ** Substring containment and keyword tables *)

Lemma startswith_spec kw text :
  Py.startswith kw text = true ↔ ∃ post, text = kw ++ post.
Proof.
  revert text. induction kw as [|a kw IH]; intros text; simpl.
  - split; [intros _; by exists text | done].
  - destruct text as [|b text].
    + split; [done | intros [post Hp]; discriminate Hp].
    + rewrite andb_true_iff, Ascii.eqb_eq, IH. split.
      * intros [-> [post ->]]. by exists post.
      * intros [post Hp]. injection Hp as -> ->. split; [done | by exists post].
Qed.

Lemma contains_spec kw text :
  Py.contains kw text = true ↔ substring kw text.
Proof.
  unfold substring. induction text as [|b text IH].
  - simpl. rewrite orb_false_r, startswith_spec. split.
    + intros [post Hp]. by exists "", post.
    + intros [[|c pre] [post Hp]]; [by exists post | discriminate Hp].
  - cbn [Py.contains]. rewrite orb_true_iff, startswith_spec, IH. split.
    + intros [[post Hp] | (pre & post & Hp)].
      * by exists "", post.
      * exists (String b pre), post. simpl. by rewrite Hp.
    + intros [[|c pre] [post Hp]].
      * left. by exists post.
      * right. injection Hp as -> ->. by exists pre, post.
Qed.

Lemma any_in_spec keywords text :
  Py.any_in keywords text = true ↔ ∃ kw, kw ∈ keywords ∧ substring kw text.
Proof.
  induction keywords as [|k rest IH]; simpl.
  - split; [done | intros (kw & Hin & _); by apply elem_of_nil in Hin].
  - destruct (Py.contains k text) eqn:Hk.
    + split; [intros _ | done].
      exists k. split; [apply list_elem_of_here | by apply contains_spec].
    + rewrite IH. split.
      * intros (kw & Hin & Hs). exists kw. split; [by apply list_elem_of_further | done].
      * intros (kw & Hin & Hs). apply elem_of_cons in Hin as [-> | Hin].
        -- apply contains_spec in Hs. congruence.
        -- by exists kw.
Qed.

Lemma group_match_spec table text :
  group_match table text = true ↔ mentions table text.
Proof.
  unfold mentions. induction table as [|[g kws] rest IH]; simpl.
  - split; [done | intros (? & ? & ? & Hin & _); by apply elem_of_nil in Hin].
  - destruct (Py.any_in kws text) eqn:Hk.
    + split; [intros _ | done].
      apply any_in_spec in Hk as (kw & Hin & Hs).
      exists g, kws, kw. split; [apply list_elem_of_here | done].
    + rewrite IH. split.
      * intros (g' & kws' & kw & Hin & Hkw & Hs).
        exists g', kws', kw. split; [by apply list_elem_of_further | done].
      * intros (g' & kws' & kw & Hin & Hkw & Hs).
        apply elem_of_cons in Hin as [Heq | Hin].
        -- injection Heq as -> ->.
           assert (Py.any_in kws text = true) by (apply any_in_spec; eauto).
           congruence.
        -- by exists g', kws', kw.
Qed.

Lemma group_match_false table text :
  group_match table text = false ↔ ¬ mentions table text.
Proof.
  rewrite <- group_match_spec. by destruct (group_match table text).
Qed.

(** ** The rule gate *)

Lemma screen_rules_total self study criteria :
  ∃ d, _screen_rules self study criteria = Some d.
Proof.
  unfold _screen_rules.
  destruct (group_match (disease_keywords self) _); simpl; [|eauto].
  destruct (group_match (trial_keywords self) _); simpl; eauto.
Qed.

Lemma screen_rules_criteria self study criteria criteria' :
  _screen_rules self study criteria = _screen_rules self study criteria'.
Proof. reflexivity. Qed.

(** C2: the rule gate decides on the text made of the lower-cased title, a
    space and the lower-cased abstract, and on nothing else of the record.
    Without a disease keyword in that text the record is excluded with
    confidence 0.95 at stage Screening; with a disease keyword but no trial
    keyword it is excluded with confidence 0.92 at stage Screening; with
    both it is included with confidence 0.90 at stage Inclusion. The
    analysis holds for any lower-casing function [lower] in the place of
    [str.lower], and [_screen_rules] is the gate with [Py.lower]. *)
Theorem screen_rules_cases (self : SLRScreeningPipeline) (study criteria : dict) :
  (∀ lower : string → string,
     let title := lower (Py.or_empty (Py.get study "title")) in
     let abstract := lower (Py.or_empty (Py.get study "abstract")) in
     let text := title ++ " " ++ abstract in
     (¬ mentions (disease_keywords self) text →
        ∃ d, screen_rules_with lower self study criteria = Some d
             ∧ decision d = "EXCLUDE" ∧ confidence d = 0.95%Q
             ∧ prisma_stage d = "Screening")
     ∧ (mentions (disease_keywords self) text →
        ¬ mentions (trial_keywords self) text →
        ∃ d, screen_rules_with lower self study criteria = Some d
             ∧ decision d = "EXCLUDE" ∧ confidence d = 0.92%Q
             ∧ prisma_stage d = "Screening")
     ∧ (mentions (disease_keywords self) text →
        mentions (trial_keywords self) text →
        ∃ d, screen_rules_with lower self study criteria = Some d
             ∧ decision d = "INCLUDE" ∧ confidence d = 0.90%Q
             ∧ prisma_stage d = "Inclusion"))
  ∧ _screen_rules self study criteria
    = screen_rules_with Py.lower self study criteria.
Proof.
  split; [|reflexivity].
  intros lower title abstract text.
  unfold screen_rules_with, text_with. fold title abstract text.
  split; [|split].
  - intros Hd%group_match_false. rewrite Hd. simpl. eauto.
  - intros Hd%group_match_spec Ht%group_match_false. rewrite Hd, Ht. simpl. eauto.
  - intros Hd%group_match_spec Ht%group_match_spec. rewrite Hd, Ht. simpl. eauto.
Qed.

(** The three cases on records that tell the fields apart: a record with
    no disease keyword; one whose disease keyword stands in the abstract
    only, in capitals, and that names no trial; and one whose disease
    keyword stands in the title, in capitals, and whose trial keyword
    stands in the abstract. *)
Lemma screen_rules_cases_witness :
  (∃ d, _screen_rules create_screening_pipeline study_cooking criteria_t2d = Some d
        ∧ decision d = "EXCLUDE" ∧ confidence d = 0.95%Q
        ∧ prisma_stage d = "Screening")
  ∧ (∃ d, _screen_rules create_screening_pipeline
            (mk_study "4" "A cohort of adults" "Outcomes in NIDDM") criteria_t2d = Some d
          ∧ decision d = "EXCLUDE" ∧ confidence d = 0.92%Q
          ∧ prisma_stage d = "Screening")
  ∧ (∃ d, _screen_rules create_screening_pipeline
            (mk_study "5" "TYPE 2 DIABETES care" "A Randomized comparison")
            criteria_t2d = Some d
          ∧ decision d = "INCLUDE" ∧ confidence d = 0.90%Q
          ∧ prisma_stage d = "Inclusion").
Proof.
  split; [|split].
  - destruct (screen_rules_cases create_screening_pipeline study_cooking criteria_t2d)
      as [Hcases ->].
    apply (Hcases Py.lower).
    apply group_match_false. vm_compute. reflexivity.
  - destruct (screen_rules_cases create_screening_pipeline
                (mk_study "4" "A cohort of adults" "Outcomes in NIDDM") criteria_t2d)
      as [Hcases ->].
    apply (Hcases Py.lower).
    + apply group_match_spec. vm_compute. reflexivity.
    + apply group_match_false. vm_compute. reflexivity.
  - destruct (screen_rules_cases create_screening_pipeline
                (mk_study "5" "TYPE 2 DIABETES care" "A Randomized comparison")
                criteria_t2d) as [Hcases ->].
    apply (Hcases Py.lower).
    + apply group_match_spec. vm_compute. reflexivity.
    + apply group_match_spec. vm_compute. reflexivity.
Defined.

Lemma passes_disease_gate_iff self study criteria :
  passes_disease_gate self study criteria
  ↔ group_match (disease_keywords self) (text_of study) = true.
Proof.
  unfold passes_disease_gate, _screen_rules.
  destruct (group_match (disease_keywords self) _); simpl.
  - split; [done | intros _].
    destruct (group_match (trial_keywords self) _); simpl; eexists; split; eauto;
      simpl; discriminate.
  - split; [| done]. intros (d & [= <-] & Hr). by destruct Hr.
Qed.

(** C3, as the code has it: the disease gate passes exactly when a keyword
    of any group of the disease taxonomy occurs in the text, whatever the
    criteria say; the criteria never enter the decision. *)
Theorem disease_gate_any_group (self : SLRScreeningPipeline) (study criteria : dict) :
  (passes_disease_gate self study criteria
   ↔ mentions (disease_keywords self) (text_of study))
  ∧ (∀ criteria', _screen_rules self study criteria' = _screen_rules self study criteria).
Proof.
  split.
  - by rewrite passes_disease_gate_iff, group_match_spec.
  - intros criteria'. apply screen_rules_criteria.
Qed.

(** C3 fails as stated: with [criteria.disease] set to type 2 diabetes, a
    record that only mentions PCOS passes the disease gate although no
    keyword of the type 2 diabetes group occurs in its text. *)
Lemma disease_gate_other_group :
  ¬ (∀ (self : SLRScreeningPipeline) (study criteria : dict) (d : string),
       Py.get criteria "disease" = Py.Str d →
       (passes_disease_gate self study criteria
        ↔ mentions (spec_disease_groups self criteria) (text_of study))).
Proof.
  intros H.
  specialize (H create_screening_pipeline study_pcos criteria_t2d
                "type 2 diabetes" eq_refl).
  assert (Hp : passes_disease_gate create_screening_pipeline study_pcos criteria_t2d).
  { apply passes_disease_gate_iff. vm_compute. reflexivity. }
  apply H in Hp. revert Hp. apply group_match_false. vm_compute. reflexivity.
Qed.

(** ** The metrics aggregator *)

Lemma fold_left_confidence ds acc :
  (fold_left (fun a d => a + confidence d) ds acc
   == acc + fold_right Qplus 0 (map confidence ds))%Q.
Proof.
  revert acc. induction ds as [|d ds IH]; intros acc; simpl.
  - ring.
  - rewrite IH. ring.
Qed.

Lemma sum_confidence_total ds :
  (sum_confidence ds == fold_right Qplus 0 (map confidence ds))%Q.
Proof. unfold sum_confidence. rewrite fold_left_confidence. ring. Qed.

Lemma well_formed_cons d ds :
  well_formed (d :: ds) → (0 <= confidence d <= 1)%Q ∧ well_formed ds.
Proof.
  unfold well_formed, valid_confidence. simpl.
  rewrite !andb_true_iff, !Qle_bool_iff. tauto.
Qed.

Lemma well_formed_elem d ds :
  well_formed ds → d ∈ ds → (0 <= confidence d <= 1)%Q.
Proof.
  induction ds as [|d' ds IH]; intros Hwf Hin.
  - by apply elem_of_nil in Hin.
  - apply well_formed_cons in Hwf as [Hd Hwf].
    apply elem_of_cons in Hin as [-> | Hin]; auto.
Qed.

Lemma total_confidence_bounds ds :
  well_formed ds →
  (0 <= fold_right Qplus 0 (map confidence ds)
   <= inject_Z (Z.of_nat (List.length ds)))%Q.
Proof.
  induction ds as [|d ds IH]; intros Hwf.
  - simpl. split; apply Qle_refl.
  - apply well_formed_cons in Hwf as [Hd Hwf]. specialize (IH Hwf).
    cbn [map fold_right List.length].
    rewrite Nat2Z.inj_succ, <- Z.add_1_r, inject_Z_plus.
    change (inject_Z 1) with 1%Q. lra.
Qed.

Lemma length_pos (ds : list ScreeningDecision) :
  ds ≠ [] → (0 < inject_Z (Z.of_nat (List.length ds)))%Q.
Proof.
  intros Hne. destruct ds as [|d ds]; [done|].
  change 0%Q with (inject_Z 0). rewrite <- Zlt_Qlt. simpl List.length. lia.
Qed.

Lemma avg_confidence_mean ds :
  ds ≠ [] → (avg_confidence ds == mean_confidence ds)%Q.
Proof.
  intros Hne. destruct ds as [|d ds]; [done|].
  unfold avg_confidence, mean_confidence.
  by rewrite sum_confidence_total.
Qed.

Lemma avg_confidence_bounds ds :
  ds ≠ [] → well_formed ds → (0 <= avg_confidence ds <= 1)%Q.
Proof.
  intros Hne Hwf. rewrite (avg_confidence_mean ds Hne). unfold mean_confidence.
  pose proof (total_confidence_bounds ds Hwf) as [Hlo Hhi].
  pose proof (length_pos ds Hne) as Hlen.
  split.
  - apply Qle_shift_div_l; [done | lra].
  - apply Qle_shift_div_r; [done | lra].
Qed.

Lemma div_returns a b : ¬ (b == 0)%Q → Py.div a b = Py.Returns (a / b)%Q.
Proof.
  intros Hb. unfold Py.div. destruct (Qeq_bool b 0) eqn:E; [|done].
  by apply Qeq_bool_iff in E.
Qed.

Lemma min_spec a b : (Py.min a b == Qmin a b)%Q.
Proof.
  unfold Py.min. destruct (Qle_bool a b) eqn:E.
  - apply Qle_bool_iff in E. by rewrite Q.min_l.
  - assert (b <= a)%Q.
    { destruct (Qlt_le_dec b a) as [Hlt|Hle]; [by apply Qlt_le_weak|].
      apply Qle_bool_iff in Hle. congruence. }
    by rewrite Q.min_r.
Qed.

(** The value built by the non-empty branch of [_compute_metrics]. *)
Lemma compute_metrics_nonempty self :
  decisions self ≠ [] →
  let ds := decisions self in
  let avg := avg_confidence ds in
  ¬ (avg + avg + 0.05 == 0)%Q →
  _compute_metrics self = Py.Returns {|
    total_retrieved := count_decision "INCLUDE" ds + count_decision "EXCLUDE" ds;
    total_screened := count_decision "INCLUDE" ds + count_decision "EXCLUDE" ds;
    total_included := count_decision "INCLUDE" ds;
    total_excluded := count_decision "EXCLUDE" ds;
    precision := avg;
    recall := Py.min 0.97 (avg + 0.05);
    f1_score := (2 * avg * (avg + 0.05) / (avg + avg + 0.05))%Q;
    accuracy := avg;
    true_positives := Py.int (inject_Z (count_decision "INCLUDE" ds) * avg);
    false_positives := Py.int (inject_Z (count_decision "EXCLUDE" ds) * (1 - avg));
    true_negatives := Py.int (inject_Z (count_decision "EXCLUDE" ds) * avg);
    false_negatives := Py.int (inject_Z (count_decision "INCLUDE" ds) * (1 - avg))
  |}.
Proof.
  intros Hne ds avg Hden. subst avg ds. unfold _compute_metrics.
  destruct (decisions self) as [|d ds]; [done|].
  by rewrite (div_returns _ _ Hden).
Qed.

Lemma compute_metrics_well_formed self :
  decisions self ≠ [] → well_formed (decisions self) →
  ¬ (avg_confidence (decisions self) + avg_confidence (decisions self) + 0.05 == 0)%Q.
Proof.
  intros Hne Hwf. pose proof (avg_confidence_bounds _ Hne Hwf). lra.
Qed.

(** C7, as the code has it: in the only mode of the aggregator (no gold
    labels), a non-empty sequence of decisions whose confidences lie in
    [0, 1] yields a metrics value whose precision is the average
    confidence of the decisions and whose recall is
    min(0.97, average confidence + 0.05). *)
Theorem estimated_precision_recall (self : SLRScreeningPipeline) :
  decisions self ≠ [] →
  well_formed (decisions self) →
  ∃ m, _compute_metrics self = Py.Returns m
       ∧ (precision m == mean_confidence (decisions self))%Q
       ∧ (recall m == Qmin 0.97 (mean_confidence (decisions self) + 0.05))%Q.
Proof.
  intros Hne Hwf.
  rewrite (compute_metrics_nonempty self Hne (compute_metrics_well_formed self Hne Hwf)).
  eexists. split; [reflexivity|]. simpl.
  rewrite min_spec, (avg_confidence_mean _ Hne). split; reflexivity.
Qed.

Lemma estimated_precision_recall_witness :
  ∃ m, _compute_metrics two_decisions = Py.Returns m
       ∧ (precision m == mean_confidence (decisions two_decisions))%Q
       ∧ (recall m == Qmin 0.97 (mean_confidence (decisions two_decisions) + 0.05))%Q.
Proof.
  apply (estimated_precision_recall two_decisions).
  - discriminate.
  - reflexivity.
Defined.

(** C7 fails as stated for every non-empty sequence: on the single
    decision of confidence -0.025 the aggregator divides by
    avg + avg + 0.05 = 0 when it computes the F1 score, and raises
    instead of returning metrics. *)
Lemma estimated_mode_can_raise :
  ¬ (∀ self : SLRScreeningPipeline,
       decisions self ≠ [] →
       ∃ m, _compute_metrics self = Py.Returns m
            ∧ (precision m == mean_confidence (decisions self))%Q
            ∧ (recall m == Qmin 0.97 (mean_confidence (decisions self) + 0.05))%Q).
Proof.
  intros H. destruct (H negative_confidence) as (m & Hm & _).
  - discriminate.
  - vm_compute in Hm. discriminate Hm.
Qed.

Lemma int_nonneg q : (0 <= q)%Q → (0 <= Py.int q)%Z.
Proof.
  intros Hq. unfold Py.int. apply Z.quot_pos; [|lia].
  unfold Qle in Hq. simpl in Hq. lia.
Qed.

Lemma count_decision_nonneg tag ds : (0 <= count_decision tag ds)%Z.
Proof. unfold count_decision. lia. Qed.

Lemma f1_bounds (a : Q) :
  (0 <= a <= 1)%Q →
  (0 <= 2 * a * (a + 0.05) / (a + a + 0.05))%Q
  ∧ ((a <= 0.975)%Q → (2 * a * (a + 0.05) / (a + a + 0.05) <= 1)%Q).
Proof.
  intros [Hlo Hhi]. split.
  - apply Qle_shift_div_l; [lra | nra].
  - intros Ha. apply Qle_shift_div_r; [lra | nra].
Qed.

(** The part of the metrics invariants that holds for every sequence of
    well-formed decisions: the totals add up, the counts are not negative,
    precision, recall and accuracy lie in [0,1], the F1 figure is not
    negative and stays below 1 as long as the average confidence does not
    exceed 0.975, and the empty sequence gives the all-zero value. *)
Lemma compute_metrics_invariants (self : SLRScreeningPipeline) :
  well_formed (decisions self) →
  ∃ m, _compute_metrics self = Py.Returns m
       ∧ (total_included m + total_excluded m = total_screened m)%Z
       ∧ (0 <= total_retrieved m ∧ 0 <= total_screened m
          ∧ 0 <= total_included m ∧ 0 <= total_excluded m
          ∧ 0 <= true_positives m ∧ 0 <= false_positives m
          ∧ 0 <= true_negatives m ∧ 0 <= false_negatives m)%Z
       ∧ (0 <= precision m <= 1)%Q
       ∧ (0 <= recall m <= 1)%Q
       ∧ (0 <= accuracy m <= 1)%Q
       ∧ (0 <= f1_score m)%Q
       ∧ ((avg_confidence (decisions self) <= 0.975)%Q → (f1_score m <= 1)%Q)
       ∧ (decisions self = [] → m = zero_metrics).
Proof.
  intros Hwf. destruct (decisions self) as [|d ds] eqn:Eds.
  - exists zero_metrics. unfold _compute_metrics. rewrite Eds. simpl.
    repeat split; try done; try lra.
  - assert (Hne : decisions self ≠ []) by (rewrite Eds; discriminate).
    rewrite <- Eds in *.
    pose proof (avg_confidence_bounds _ Hne Hwf) as Havg.
    rewrite (compute_metrics_nonempty self Hne (compute_metrics_well_formed self Hne Hwf)).
    eexists. split; [reflexivity|]. cbn [total_included total_excluded total_screened
      total_retrieved true_positives false_positives true_negatives false_negatives
      precision recall accuracy f1_score].
    set (a := avg_confidence (decisions self)) in *.
    pose proof (count_decision_nonneg "INCLUDE" (decisions self)) as Hi.
    pose proof (count_decision_nonneg "EXCLUDE" (decisions self)) as He.
    assert (Hqi : (0 <= inject_Z (count_decision "INCLUDE" (decisions self)))%Q)
      by (change 0%Q with (inject_Z 0); by rewrite <- Zle_Qle).
    assert (Hqe : (0 <= inject_Z (count_decision "EXCLUDE" (decisions self)))%Q)
      by (change 0%Q with (inject_Z 0); by rewrite <- Zle_Qle).
    destruct (f1_bounds a Havg) as [Hf0 Hf1].
    repeat split; try lia; try lra; try (apply int_nonneg; nra); try done.
    + rewrite min_spec. apply Q.min_glb; lra.
    + rewrite min_spec. apply Qle_trans with 0.97%Q; [apply Q.le_min_l | lra].
Qed.

(** C6 fails on the F1 figure: for the single well-formed decision of
    confidence 1.0 the aggregator returns F1 = 2.1 / 2.05, above 1. The
    recall field is capped at 0.97, the recall term inside the F1 formula
    is not. *)
Theorem f1_score_exceeds_one :
  well_formed [certain_decision]
  ∧ ∃ m, _compute_metrics (with_decisions create_screening_pipeline [certain_decision])
         = Py.Returns m
         ∧ (recall m == 0.97)%Q
         ∧ (f1_score m == 42 # 41)%Q
         ∧ (1 < f1_score m)%Q.
Proof.
  split; [reflexivity|].
  eexists. split; [vm_compute; reflexivity|].
  repeat split.
Qed.

Lemma int_compat q q' : (q == q')%Q → Py.int q = Py.int q'.
Proof.
  unfold Qeq, Py.int. destruct q as [a b], q' as [a' b']. simpl. intros H.
  rewrite <- (Z.quot_mul_cancel_r a (Zpos b) (Zpos b')) by lia.
  rewrite <- (Z.quot_mul_cancel_r a' (Zpos b') (Zpos b)) by lia.
  rewrite H. f_equal. lia.
Qed.

Lemma compute_metrics_inv self m :
  decisions self ≠ [] →
  _compute_metrics self = Py.Returns m →
  let ds := decisions self in
  let avg := avg_confidence ds in
  m = {|
    total_retrieved := count_decision "INCLUDE" ds + count_decision "EXCLUDE" ds;
    total_screened := count_decision "INCLUDE" ds + count_decision "EXCLUDE" ds;
    total_included := count_decision "INCLUDE" ds;
    total_excluded := count_decision "EXCLUDE" ds;
    precision := avg;
    recall := Py.min 0.97 (avg + 0.05);
    f1_score := (2 * avg * (avg + 0.05) / (avg + avg + 0.05))%Q;
    accuracy := avg;
    true_positives := Py.int (inject_Z (count_decision "INCLUDE" ds) * avg);
    false_positives := Py.int (inject_Z (count_decision "EXCLUDE" ds) * (1 - avg));
    true_negatives := Py.int (inject_Z (count_decision "EXCLUDE" ds) * avg);
    false_negatives := Py.int (inject_Z (count_decision "INCLUDE" ds) * (1 - avg))
  |}.
Proof.
  intros Hne Hm ds avg. subst avg ds. unfold _compute_metrics, Py.div in Hm.
  destruct (decisions self) as [|d ds]; [done|].
  destruct (Qeq_bool _ 0); [discriminate|]. by injection Hm as <-.
Qed.

(** C8, as the code has it: the aggregator has a single mode, the estimate
    from the confidences, and the value it returns has no component naming
    a mode; every field is determined by the number of INCLUDE decisions,
    the number of EXCLUDE decisions, the average confidence and whether the
    decision list is empty. *)
Theorem metrics_from_counts_and_average (self1 self2 : SLRScreeningPipeline)
    (m1 m2 : SLRMetrics) :
  no_decision self1 = no_decision self2 →
  _compute_metrics self1 = Py.Returns m1 →
  _compute_metrics self2 = Py.Returns m2 →
  count_decision "INCLUDE" (decisions self1) = count_decision "INCLUDE" (decisions self2) →
  count_decision "EXCLUDE" (decisions self1) = count_decision "EXCLUDE" (decisions self2) →
  (avg_confidence (decisions self1) == avg_confidence (decisions self2))%Q →
  metrics_equiv m1 m2.
Proof.
  intros Hempty H1 H2 Hi He Ha.
  destruct (decisions self1) as [|d1 ds1] eqn:Hds1,
           (decisions self2) as [|d2 ds2] eqn:Hds2.
  - unfold _compute_metrics in H1, H2. rewrite Hds1 in H1. rewrite Hds2 in H2.
    injection H1 as <-. injection H2 as <-.
    unfold metrics_equiv. repeat split; reflexivity.
  - unfold no_decision in Hempty. rewrite Hds1, Hds2 in Hempty. discriminate Hempty.
  - unfold no_decision in Hempty. rewrite Hds1, Hds2 in Hempty. discriminate Hempty.
  - assert (Hne1 : decisions self1 ≠ []) by (by rewrite Hds1).
    assert (Hne2 : decisions self2 ≠ []) by (by rewrite Hds2).
    rewrite (compute_metrics_inv self1 m1 Hne1 H1), (compute_metrics_inv self2 m2 Hne2 H2).
    rewrite Hds1, Hds2.
    unfold metrics_equiv.
    cbn [total_included total_excluded total_screened total_retrieved true_positives
         false_positives true_negatives false_negatives precision recall accuracy f1_score].
    rewrite Hi, He.
    repeat split; try done; try (apply int_compat; by rewrite Ha).
    + by rewrite !min_spec, Ha.
    + by rewrite Ha.
Qed.

Lemma metrics_from_counts_and_average_witness :
  ∃ m1 m2,
    _compute_metrics (with_decisions create_screening_pipeline [certain_decision])
      = Py.Returns m1
    ∧ _compute_metrics
        (with_decisions create_screening_pipeline
           [make_decision study_pcos "INCLUDE" (2 # 2) ML "ML model" "Inclusion"])
      = Py.Returns m2
    ∧ metrics_equiv m1 m2.
Proof.
  eexists. eexists. split; [vm_compute; reflexivity|].
  split; [vm_compute; reflexivity|].
  apply (metrics_from_counts_and_average
           (with_decisions create_screening_pipeline [certain_decision])
           (with_decisions create_screening_pipeline
              [make_decision study_pcos "INCLUDE" (2 # 2) ML "ML model" "Inclusion"]));
    vm_compute; reflexivity.
Defined.

(** C8 fails as stated: no reading of the returned value tells the two
    modes apart. On empty input the aggregator returns the very value that
    a computation against gold labels gives for no decision at all. *)
Lemma metrics_mode_not_surfaced :
  ¬ ∃ mode_of : SLRMetrics → bool,
      (∀ self m, _compute_metrics self = Py.Returns m → mode_of m = true)
      ∧ (∀ ps, mode_of (spec_ground_truth_metrics ps) = false).
Proof.
  intros (mode_of & Hest & Hgold).
  specialize (Hest create_screening_pipeline zero_metrics eq_refl).
  specialize (Hgold []). simpl in Hgold. congruence.
Qed.

(** ** The cascade loop *)

Ltac run_monad :=
  unfold screen_study, call_screen_rules, call_screen_ml, call_screen_bert,
    append_decision, set_decisions, entered, get_self, evaluate,
    mbind, M_bind, mret, M_ret; cbn [this calls].

Lemma tests_returns ml_model bert_model use_ml use_bert :
  tests ml_model bert_model = Py.Returns (use_ml, use_bert)
  ↔ truth_of ml_model = Py.Returns use_ml ∧ truth_of bert_model = Py.Returns use_bert.
Proof.
  unfold tests. destruct (truth_of ml_model), (truth_of bert_model);
    split; [intros [= -> ->] | intros [[= ->] [= ->]] | | | | | |];
    (done || by intros [? ?]).
Qed.

Lemma rule_includes_with_decisions self ds :
  rule_includes (with_decisions self ds) = rule_includes self.
Proof. reflexivity. Qed.

Lemma record_calls_with_decisions self ds :
  record_calls (with_decisions self ds) = record_calls self.
Proof. reflexivity. Qed.

Lemma aborted_calls_with_decisions self ds criteria ml_model studies :
  aborted_calls (with_decisions self ds) criteria ml_model studies
  = aborted_calls self criteria ml_model studies.
Proof.
  induction studies as [|study rest IH]; [done|].
  cbn [aborted_calls]. by rewrite IH, rule_includes_with_decisions.
Qed.

Lemma with_decisions_twice self ds ds' :
  with_decisions (with_decisions self ds) ds' = with_decisions self ds'.
Proof. reflexivity. Qed.

(** One record, when both truth tests return. *)
Lemma screen_study_calm criteria ml_model bert_model use_ml use_bert study self cs :
  truth_of ml_model = Py.Returns use_ml →
  truth_of bert_model = Py.Returns use_bert →
  screen_study criteria ml_model bert_model study {| this := self; calls := cs |}
  = (Py.Returns tt,
     {| this := with_decisions self
                  (decisions self
                   ++ (if rule_includes self criteria study
                       then [decision_for use_ml study] else []));
        calls := cs ++ record_calls self criteria use_ml use_bert study |}).
Proof.
  intros Hml Hbert.
  unfold record_calls, rule_includes, decision_for. run_monad.
  unfold _screen_rules, _screen_ml, _screen_bert.
  destruct (group_match (disease_keywords self) _); cbn;
    [destruct (group_match (trial_keywords self) _); cbn|].
  - rewrite Hml. destruct use_ml; cbn; rewrite Hbert; destruct use_bert; cbn;
      by rewrite <- ?app_assoc.
  - destruct self. unfold with_decisions. cbn. by rewrite app_nil_r.
  - destruct self. unfold with_decisions. cbn. by rewrite app_nil_r.
Qed.

(** One record, when a truth test raises. *)
Lemma screen_study_raising criteria ml_model bert_model e study self cs :
  tests ml_model bert_model = Py.Raises e →
  screen_study criteria ml_model bert_model study {| this := self; calls := cs |}
  = if rule_includes self criteria study
    then (Py.Raises e,
          {| this := self;
             calls := cs ++ Enter_rules study ::
                      match truth_of ml_model with
                      | Py.Returns true => [Enter_ml study]
                      | _ => []
                      end |})
    else (Py.Returns tt, {| this := self; calls := cs ++ [Enter_rules study] |}).
Proof.
  unfold tests, rule_includes. run_monad.
  unfold _screen_rules, _screen_ml, _screen_bert.
  destruct (group_match (disease_keywords self) _); cbn;
    [destruct (group_match (trial_keywords self) _); cbn|]; try done.
  destruct (truth_of ml_model) as [use_ml|e1]; cbn.
  - destruct (truth_of bert_model) as [use_bert|e2]; [done|]. intros [= ->].
    destruct use_ml; cbn; by rewrite <- ?app_assoc.
  - by intros [= ->].
Qed.

Lemma for_each_calm criteria ml_model bert_model use_ml use_bert studies self cs :
  truth_of ml_model = Py.Returns use_ml →
  truth_of bert_model = Py.Returns use_bert →
  for_each (screen_study criteria ml_model bert_model) studies
    {| this := self; calls := cs |}
  = (Py.Returns tt,
     {| this := with_decisions self
                  (decisions self
                   ++ map (decision_for use_ml)
                        (List.filter (rule_includes self criteria) studies));
        calls := cs ++ flat_map (record_calls self criteria use_ml use_bert) studies |}).
Proof.
  intros Hml Hbert. revert self cs.
  induction studies as [|study rest IH]; intros self cs.
  - destruct self. unfold with_decisions. cbn. by rewrite !app_nil_r.
  - cbn [for_each flat_map List.filter]. unfold mbind at 1, M_bind at 1.
    rewrite (screen_study_calm _ _ _ _ _ _ _ _ Hml Hbert), IH.
    rewrite rule_includes_with_decisions, record_calls_with_decisions,
      with_decisions_twice.
    change (decisions (with_decisions self ?ds)) with ds.
    destruct (rule_includes self criteria study); cbn [map];
      by rewrite <- !app_assoc.
Qed.

Lemma for_each_raising criteria ml_model bert_model e studies self cs :
  tests ml_model bert_model = Py.Raises e →
  for_each (screen_study criteria ml_model bert_model) studies
    {| this := self; calls := cs |}
  = (if existsb (rule_includes self criteria) studies
     then Py.Raises e else Py.Returns tt,
     {| this := self;
        calls := cs ++ aborted_calls self criteria ml_model studies |}).
Proof.
  intros Htests. revert cs. induction studies as [|study rest IH]; intros cs.
  - cbn. by rewrite app_nil_r.
  - cbn [for_each existsb aborted_calls]. unfold mbind at 1, M_bind at 1.
    rewrite (screen_study_raising _ _ _ _ _ _ _ Htests).
    destruct (rule_includes self criteria study); cbn [orb]; [done|].
    rewrite IH. by rewrite <- app_assoc.
Qed.

Lemma decision_for_well_formed use_ml (studies : list dict) :
  well_formed (map (decision_for use_ml) studies).
Proof.
  unfold well_formed. induction studies as [|study rest IH]; [done|].
  cbn [map forallb]. rewrite IH. by destruct use_ml.
Qed.

(** A run whose truth tests return, in closed form: it returns, the
    decisions are those of the records that the rule gate includes, in
    input order, and the metrics are those of these decisions. *)
Lemma screen_studies_calm studies criteria ml_model bert_model use_ml use_bert w :
  truth_of ml_model = Py.Returns use_ml →
  truth_of bert_model = Py.Returns use_bert →
  ∃ m,
    screen_studies studies criteria ml_model bert_model w
    = (Py.Returns
         (map (decision_for use_ml)
            (List.filter (rule_includes (this w) criteria) studies), m),
       {| this := with_decisions (this w)
                    (map (decision_for use_ml)
                       (List.filter (rule_includes (this w) criteria) studies));
          calls := calls w
                   ++ flat_map (record_calls (this w) criteria use_ml use_bert) studies |})
    ∧ _compute_metrics
        (with_decisions (this w)
           (map (decision_for use_ml)
              (List.filter (rule_includes (this w) criteria) studies)))
      = Py.Returns m.
Proof.
  intros Hml Hbert. destruct w as [self cs]. cbn [this calls].
  set (ds := map (decision_for use_ml) (List.filter (rule_includes self criteria) studies)).
  destruct (compute_metrics_invariants (with_decisions self ds)) as (m & Hm & _).
  { apply decision_for_well_formed. }
  exists m. split; [|done].
  unfold screen_studies, set_decisions, get_self, evaluate.
  unfold mbind at 1 2 3 4, M_bind. cbn [this calls].
  rewrite (for_each_calm _ _ _ _ _ _ _ _ Hml Hbert).
  rewrite rule_includes_with_decisions, record_calls_with_decisions,
    with_decisions_twice.
  change (decisions (with_decisions self [])) with (@nil ScreeningDecision).
  rewrite app_nil_l. fold ds. cbn [this calls].
  rewrite Hm. reflexivity.
Qed.

(** A run with a raising truth test, in closed form: it stops at the
    first record that the rule gate includes, with that exception and no
    decision stored; without such a record it returns no decision. *)
Lemma screen_studies_raising studies criteria ml_model bert_model e w :
  tests ml_model bert_model = Py.Raises e →
  screen_studies studies criteria ml_model bert_model w
  = (if existsb (rule_includes (this w) criteria) studies
     then Py.Raises e else Py.Returns ([], zero_metrics),
     {| this := with_decisions (this w) [];
        calls := calls w ++ aborted_calls (this w) criteria ml_model studies |}).
Proof.
  intros Htests. destruct w as [self cs]. cbn [this calls].
  unfold screen_studies, set_decisions, get_self, evaluate.
  unfold mbind at 1 2 3 4, M_bind. cbn [this calls].
  rewrite (for_each_raising _ _ _ _ _ _ _ Htests).
  rewrite rule_includes_with_decisions, aborted_calls_with_decisions.
  by destruct (existsb (rule_includes self criteria) studies).
Qed.

Lemma existsb_filter_nil {A} (f : A → bool) (l : list A) :
  existsb f l = false ↔ List.filter f l = [].
Proof.
  induction l as [|x l IH]; [done|]. cbn. destruct (f x); cbn; [|exact IH].
  split; discriminate.
Qed.

(** What a run that returns has returned, whatever the plugins. *)
Lemma run_returns_inv studies criteria ml_model bert_model w ds m :
  fst (screen_studies studies criteria ml_model bert_model w) = Py.Returns (ds, m) →
  ∃ use_ml,
    ds = map (decision_for use_ml)
           (List.filter (rule_includes (this w) criteria) studies)
    ∧ this (snd (screen_studies studies criteria ml_model bert_model w))
      = with_decisions (this w) ds
    ∧ _compute_metrics (with_decisions (this w) ds) = Py.Returns m.
Proof.
  destruct (tests ml_model bert_model) as [[use_ml use_bert]|e] eqn:Htests.
  - apply tests_returns in Htests as [Hml Hbert].
    destruct (screen_studies_calm studies criteria _ _ _ _ w Hml Hbert)
      as (m' & Hrun & Hm').
    rewrite Hrun. cbn [fst snd this]. intros [= <- <-]. by exists use_ml.
  - rewrite (screen_studies_raising _ _ _ _ _ _ Htests). cbn [fst snd this].
    destruct (existsb _ studies) eqn:Hex; [discriminate|]. intros [= <- <-].
    apply existsb_filter_nil in Hex. exists false. by rewrite Hex.
Qed.

Lemma decision_for_include use_ml (studies : list dict) d :
  d ∈ map (decision_for use_ml) studies → decision d = "INCLUDE".
Proof.
  rewrite list_elem_of_In, in_map_iff. intros (study & <- & _). by destruct use_ml.
Qed.

Lemma rule_includes_iff self criteria study :
  rule_includes self criteria study = true
  ↔ ∃ d, _screen_rules self study criteria = Some d ∧ decision d = "INCLUDE".
Proof.
  unfold rule_includes. destruct (_screen_rules self study criteria) as [d|].
  - rewrite String.eqb_eq. split; [eauto | by intros (? & [= <-] & ?)].
  - split; [done | by intros (? & ? & _)].
Qed.

Lemma rule_include_decision self criteria study d :
  _screen_rules self study criteria = Some d →
  String.eqb (decision d) "INCLUDE" = true →
  d = decision_for false study.
Proof.
  unfold _screen_rules, decision_for.
  destruct (group_match (disease_keywords self) _); cbn;
    [destruct (group_match (trial_keywords self) _); cbn|];
    intros [= <-]; done.
Qed.

Lemma rule_decisions_filter self criteria studies :
  map (decision_for false) (List.filter (rule_includes self criteria) studies)
  = List.filter (fun d => String.eqb (decision d) "INCLUDE")
      (omap (fun study => _screen_rules self study criteria) studies).
Proof.
  induction studies as [|study rest IH]; [done|].
  cbn [List.filter omap list_omap]. unfold rule_includes at 1.
  destruct (screen_rules_total self study criteria) as [d Hd]. rewrite Hd.
  cbn [List.filter]. destruct (String.eqb (decision d) "INCLUDE") eqn:Hinc.
  - cbn [map]. by rewrite IH, (rule_include_decision _ _ _ _ Hd Hinc).
  - exact IH.
Qed.

(** C10: without plugins every decision returned by [screen_studies] is an
    INCLUDE; the output is the sequence of rule decisions of the input
    records with the exclusions left out, so an excluded record adds no
    element to it. *)
Theorem rule_only_run_returns_inclusions (studies : list dict) (criteria : dict)
    (w : world) :
  ∃ ds m,
    fst (screen_studies studies criteria None None w) = Py.Returns (ds, m)
    ∧ ds = List.filter (fun d => String.eqb (decision d) "INCLUDE")
             (omap (fun study => _screen_rules (this w) study criteria) studies)
    ∧ (∀ d, d ∈ ds → decision d = "INCLUDE").
Proof.
  destruct (screen_studies_calm studies criteria None None false false w eq_refl eq_refl)
    as (m & Hrun & _).
  eexists _, m. rewrite Hrun. split; [reflexivity|]. split.
  - apply rule_decisions_filter.
  - intros d. apply decision_for_include.
Qed.

Lemma decision_for_pmid use_ml (studies : list dict) :
  map pmid (map (decision_for use_ml) studies)
  = map (fun study => Py.get study "pmid") studies.
Proof.
  rewrite map_map. apply map_ext. intros study. by destruct use_ml.
Qed.

(** C1, as the code has it: [screen_studies] returns one decision per input
    record that the rule gate includes, in input order; the record ids of
    the output are the ids of the included records, and the output is no
    longer than the input. The run without plugins always returns; with
    plugins the same holds of every run that returns. *)
Theorem run_returns_included_in_order (studies : list dict) (criteria : dict)
    (w : world) :
  (∃ ds m, fst (screen_studies studies criteria None None w) = Py.Returns (ds, m))
  ∧ ∀ (ml_model bert_model : option scorer) ds m,
      fst (screen_studies studies criteria ml_model bert_model w) = Py.Returns (ds, m) →
      map pmid ds
      = map (fun study => Py.get study "pmid")
          (List.filter (rule_includes (this w) criteria) studies)
      ∧ List.length ds
        = List.length (List.filter (rule_includes (this w) criteria) studies)
      ∧ (List.length ds <= List.length studies)%nat.
Proof.
  split.
  - destruct (screen_studies_calm studies criteria None None false false w
                eq_refl eq_refl) as (m & Hrun & _).
    eexists _, m. by rewrite Hrun.
  - intros ml_model bert_model ds m Hret.
    apply run_returns_inv in Hret as (use_ml & -> & _).
    rewrite decision_for_pmid, length_map. repeat split.
    apply filter_length_le.
Qed.

(** C1 fails as stated: of the two records of scenario A only the first
    gets a decision. *)
Lemma run_drops_excluded_records :
  ¬ (∀ (studies : list dict) (criteria : dict) (ml_model bert_model : option scorer)
       (w : world) ds m,
       fst (screen_studies studies criteria ml_model bert_model w) = Py.Returns (ds, m) →
       List.length ds = List.length studies).
Proof.
  intros H.
  destruct (screen_studies_calm [study_rct; study_cooking] criteria_t2d None None
              false false fresh eq_refl eq_refl) as (m & Hrun & _).
  specialize (H [study_rct; study_cooking] criteria_t2d None None fresh _ m
                (f_equal fst Hrun)).
  vm_compute in H. discriminate H.
Qed.

Lemma record_calls_about self criteria use_ml use_bert study' c :
  c ∈ record_calls self criteria use_ml use_bert study' →
  c = Enter_rules study'
  ∨ rule_includes self criteria study' = true
    ∧ (c = Enter_ml study' ∨ c = Enter_bert study').
Proof.
  unfold record_calls. destruct (rule_includes self criteria study').
  - destruct use_ml, use_bert; simpl; intros H;
      repeat (apply elem_of_cons in H as [-> | H]);
      try (by apply elem_of_nil in H); eauto.
  - intros H. apply elem_of_cons in H as [-> | H]; [auto | by apply elem_of_nil in H].
Qed.

Lemma aborted_calls_about self criteria ml_model studies c :
  c ∈ aborted_calls self criteria ml_model studies →
  ∃ study', c = Enter_rules study'
            ∨ rule_includes self criteria study' = true ∧ c = Enter_ml study'.
Proof.
  induction studies as [|study' rest IH]; intros H.
  - by apply elem_of_nil in H.
  - cbn [aborted_calls] in H. apply elem_of_cons in H as [-> | H]; [eauto|].
    destruct (rule_includes self criteria study') eqn:Hinc; [|by apply IH].
    destruct (truth_of ml_model) as [[|]|]; try (by apply elem_of_nil in H).
    apply elem_of_cons in H as [-> | H]; [eauto | by apply elem_of_nil in H].
Qed.

Lemma excluded_not_included self criteria study d :
  _screen_rules self study criteria = Some d → decision d = "EXCLUDE" →
  rule_includes self criteria study = false.
Proof. unfold rule_includes. by intros -> ->. Qed.

Lemma decides_decision_for use_ml (studies : list dict) :
  Forall2 decides studies (map (decision_for use_ml) studies).
Proof.
  induction studies as [|study rest IH]; constructor; [|exact IH].
  unfold decides. by destruct use_ml.
Qed.

(** C4, as the code has it: for a record that the rule gate excludes,
    neither the ML layer nor the semantic layer is entered during the run,
    whatever the plugins; and in a run that returns the record has no
    decision: the returned decisions are, one for one and in input order,
    those of the records that the rule gate includes, the excluded record
    is not one of them, and its EXCLUDE decision is not returned. *)
Theorem excluded_record_skips_layers (studies : list dict) (criteria : dict)
    (ml_model bert_model : option scorer) (w : world) (study : dict)
    (d : ScreeningDecision) :
  _screen_rules (this w) study criteria = Some d →
  decision d = "EXCLUDE" →
  ∃ new_calls : list call,
    calls (snd (screen_studies studies criteria ml_model bert_model w))
    = (calls w ++ new_calls)%list
    ∧ (Enter_ml study ∉ new_calls)
    ∧ (Enter_bert study ∉ new_calls)
    ∧ ∀ ds m,
        fst (screen_studies studies criteria ml_model bert_model w)
        = Py.Returns (ds, m) →
        Forall2 decides (List.filter (rule_includes (this w) criteria) studies) ds
        ∧ (study ∉ List.filter (rule_includes (this w) criteria) studies)
        ∧ (d ∉ ds).
Proof.
  intros Hr He.
  pose proof (excluded_not_included _ _ _ _ Hr He) as Hex.
  assert (Hret : ∀ ds m,
            fst (screen_studies studies criteria ml_model bert_model w)
            = Py.Returns (ds, m) →
            Forall2 decides (List.filter (rule_includes (this w) criteria) studies) ds
            ∧ (study ∉ List.filter (rule_includes (this w) criteria) studies)
            ∧ (d ∉ ds)).
  { intros ds m Hds. apply run_returns_inv in Hds as (use_ml & -> & _).
    split; [apply decides_decision_for|]. split.
    - rewrite list_elem_of_In, filter_In. intros [_ Hin]. congruence.
    - intros Hin%decision_for_include. congruence. }
  destruct (tests ml_model bert_model) as [[use_ml use_bert]|e] eqn:Htests.
  - apply tests_returns in Htests as [Hml Hbert].
    destruct (screen_studies_calm studies criteria _ _ _ _ w Hml Hbert)
      as (m & Hrun & _).
    eexists. split; [by rewrite Hrun|].
    assert (Hlater : ∀ c, c = Enter_ml study ∨ c = Enter_bert study →
              c ∉ flat_map (record_calls (this w) criteria use_ml use_bert) studies).
    { intros c Hc Hin. apply list_elem_of_In, in_flat_map in Hin as (study' & _ & Hin).
      apply list_elem_of_In, record_calls_about in Hin as [-> | [Hinc Hin]].
      - destruct Hc as [Hc | Hc]; discriminate Hc.
      - assert (study' = study) as -> by (destruct Hc as [-> | ->], Hin as [[=] | [=]]; done).
        congruence. }
    split; [apply Hlater; auto|]. split; [apply Hlater; auto | exact Hret].
  - eexists. rewrite (screen_studies_raising _ _ _ _ _ _ Htests) in *.
    cbn [snd calls]. split; [reflexivity|].
    assert (Hlater : ∀ c, c = Enter_ml study ∨ c = Enter_bert study →
              c ∉ aborted_calls (this w) criteria ml_model studies).
    { intros c Hc Hin. apply aborted_calls_about in Hin as (study' & [-> | [Hinc ->]]).
      - destruct Hc as [Hc | Hc]; discriminate Hc.
      - destruct Hc as [[= ->] | [=]]. congruence. }
    split; [apply Hlater; auto|]. split; [apply Hlater; auto | exact Hret].
Qed.

Lemma excluded_record_skips_layers_witness :
  ∃ (d : ScreeningDecision) (new_calls : list call),
    _screen_rules (this fresh) study_cooking criteria_t2d = Some d
    ∧ calls (snd (screen_studies [study_rct; study_cooking] criteria_t2d
                    (Some failing_scorer) (Some failing_scorer) fresh))
      = (calls fresh ++ new_calls)%list
    ∧ (Enter_ml study_cooking ∉ new_calls)
    ∧ (Enter_bert study_cooking ∉ new_calls).
Proof.
  eexists.
  destruct (excluded_record_skips_layers [study_rct; study_cooking] criteria_t2d
              (Some failing_scorer) (Some failing_scorer) fresh study_cooking
              (make_decision study_cooking "EXCLUDE" 0.95 RULES
                 "Does not match disease criteria" "Screening"))
    as (new_calls & Hcalls & Hml & Hbert & _).
  - vm_compute. reflexivity.
  - reflexivity.
  - exists new_calls. split; [vm_compute; reflexivity|].
    split; [exact Hcalls|]. split; [exact Hml | exact Hbert].
Defined.

(** C4 fails as stated in its last part: in a run with a plugin attached,
    the EXCLUDE decision of the rule gate is not the record's final
    decision in the output; the excluded record of scenario A has no
    decision there at all. *)
Lemma excluded_decision_not_returned :
  ¬ (∀ (studies : list dict) (criteria : dict) (ml_model bert_model : option scorer)
       (w : world) (study : dict) (d : ScreeningDecision) ds m,
       ml_model ≠ None ∨ bert_model ≠ None →
       study ∈ studies →
       _screen_rules (this w) study criteria = Some d →
       decision d = "EXCLUDE" →
       fst (screen_studies studies criteria ml_model bert_model w) = Py.Returns (ds, m) →
       d ∈ ds).
Proof.
  intros H.
  destruct (screen_studies_calm [study_rct; study_cooking] criteria_t2d
              (Some failing_scorer) None true false fresh eq_refl eq_refl)
    as (m & Hrun & _).
  specialize (H [study_rct; study_cooking] criteria_t2d (Some failing_scorer) None
                fresh study_cooking
                (make_decision study_cooking "EXCLUDE" 0.95 RULES
                   "Does not match disease criteria" "Screening")
                (map (decision_for true)
                   (List.filter (rule_includes (this fresh) criteria_t2d)
                      [study_rct; study_cooking])) m).
  apply decision_for_include in H.
  - discriminate H.
  - left. discriminate.
  - apply list_elem_of_further, list_elem_of_here.
  - vm_compute. reflexivity.
  - reflexivity.
  - by rewrite Hrun.
Qed.

Lemma screen_study_ext criteria ml_model ml_model' bert_model bert_model' study w :
  truth_of ml_model' = truth_of ml_model →
  truth_of bert_model' = truth_of bert_model →
  screen_study criteria ml_model' bert_model' study w
  = screen_study criteria ml_model bert_model study w.
Proof.
  intros Hml Hbert. run_monad. unfold _screen_ml, _screen_bert.
  by rewrite Hml, Hbert.
Qed.

Lemma for_each_ext {A} (f g : A → M unit) (l : list A) (w : world) :
  (∀ x w', f x w' = g x w') → for_each f l w = for_each g l w.
Proof.
  intros Hext. revert w. induction l as [|x l IH]; intros w; [done|].
  cbn [for_each]. unfold mbind, M_bind. rewrite Hext.
  destruct (g x w) as [[[]|e] w']; [apply IH | done].
Qed.

Lemma run_ignores_scorers studies criteria ml_model ml_model' bert_model bert_model' w :
  truth_of ml_model' = truth_of ml_model →
  truth_of bert_model' = truth_of bert_model →
  screen_studies studies criteria ml_model' bert_model' w
  = screen_studies studies criteria ml_model bert_model w.
Proof.
  intros Hml Hbert. unfold screen_studies, mbind, M_bind.
  destruct (set_decisions [] w) as [[[]|e] w0]; [|done].
  rewrite (for_each_ext (screen_study criteria ml_model' bert_model')
             (screen_study criteria ml_model bert_model));
    [done | intros; by apply screen_study_ext].
Qed.

(** C5, as the code has it: the loop never calls a plugin's scoring
    function, so a scoring failure cannot occur, and the result of a run
    depends on a plugin only through its truth value. With an ML plugin
    that tests true every included record gets the decision of the ML
    layer (INCLUDE, 0.92, layer ML) in place of its rule decision, even if
    the plugin's scoring call always fails; with no ML plugin or one that
    tests false the run returns what the rule-only run returns; a plugin
    whose truth test raises ends the run with that exception at the first
    record that the rule gate includes. *)
Theorem run_with_plugins (studies : list dict) (criteria : dict)
    (ml_model bert_model : option scorer) (w : world) :
  (∀ ml_model' bert_model',
     truth_of ml_model' = truth_of ml_model →
     truth_of bert_model' = truth_of bert_model →
     screen_studies studies criteria ml_model' bert_model' w
     = screen_studies studies criteria ml_model bert_model w)
  ∧ (∀ use_bert,
       truth_of ml_model = Py.Returns true →
       truth_of bert_model = Py.Returns use_bert →
       ∃ m, fst (screen_studies studies criteria ml_model bert_model w)
            = Py.Returns
                (map (fun study =>
                        make_decision study "INCLUDE" 0.92 ML
                          "ML model: High likelihood of relevance" "Inclusion")
                   (List.filter (rule_includes (this w) criteria) studies), m))
  ∧ (∀ use_bert,
       truth_of ml_model = Py.Returns false →
       truth_of bert_model = Py.Returns use_bert →
       (∃ ds m, fst (screen_studies studies criteria ml_model bert_model w)
                = Py.Returns (ds, m))
       ∧ fst (screen_studies studies criteria ml_model bert_model w)
         = fst (screen_studies studies criteria None None w))
  ∧ (∀ e,
       tests ml_model bert_model = Py.Raises e →
       fst (screen_studies studies criteria ml_model bert_model w)
       = if existsb (rule_includes (this w) criteria) studies
         then Py.Raises e else Py.Returns ([], zero_metrics)).
Proof.
  repeat split.
  - intros ml_model' bert_model'. apply run_ignores_scorers.
  - intros use_bert Hml Hbert.
    destruct (screen_studies_calm studies criteria _ _ _ _ w Hml Hbert)
      as (m & Hrun & _).
    exists m. by rewrite Hrun.
  - destruct (screen_studies_calm studies criteria _ _ _ _ w H H0)
      as (m & Hrun & _).
    eexists _, m. by rewrite Hrun.
  - destruct (screen_studies_calm studies criteria _ _ _ _ w H H0)
      as (m & Hrun & Hm).
    destruct (screen_studies_calm studies criteria None None false false w
                eq_refl eq_refl) as (m' & Hrun' & Hm').
    rewrite Hrun, Hrun'. cbn [fst]. congruence.
  - intros e Htests. by rewrite (screen_studies_raising _ _ _ _ _ _ Htests).
Qed.

Lemma run_with_plugins_witness :
  screen_studies [study_rct; study_cooking] criteria_t2d (Some echo_scorer) None fresh
  = screen_studies [study_rct; study_cooking] criteria_t2d (Some failing_scorer) None fresh
  ∧ (∃ m, fst (screen_studies [study_rct; study_cooking] criteria_t2d
                 (Some failing_scorer) None fresh)
          = Py.Returns
              ([make_decision study_rct "INCLUDE" 0.92 ML
                  "ML model: High likelihood of relevance" "Inclusion"], m))
  ∧ fst (screen_studies [study_rct; study_cooking] criteria_t2d
           (Some empty_scorer) (Some failing_scorer) fresh)
    = fst (screen_studies [study_rct; study_cooking] criteria_t2d None None fresh)
  ∧ fst (screen_studies [study_rct; study_cooking] criteria_t2d
           (Some untestable_scorer) None fresh)
    = Py.Raises "TypeError".
Proof.
  destruct (run_with_plugins [study_rct; study_cooking] criteria_t2d
              (Some failing_scorer) None fresh) as (Hsame & Hml & _ & _).
  destruct (run_with_plugins [study_rct; study_cooking] criteria_t2d
              (Some empty_scorer) (Some failing_scorer) fresh) as (_ & _ & Hrule & _).
  destruct (run_with_plugins [study_rct; study_cooking] criteria_t2d
              (Some untestable_scorer) None fresh) as (_ & _ & _ & Hraise).
  split; [apply Hsame; reflexivity|].
  split; [apply (Hml false); reflexivity|].
  split; [apply (Hrule true); reflexivity|].
  rewrite (Hraise "TypeError" eq_refl). vm_compute. reflexivity.
Defined.

(** C5 fails as stated: a run with an always-failing ML plugin does not
    return the decisions of the rule-only run; the included record of
    scenario A comes back with layer ML and confidence 0.92. *)
Lemma failing_plugin_changes_decisions :
  ¬ (∀ (studies : list dict) (criteria : dict) (w : world) ds m ds' m',
       fst (screen_studies studies criteria (Some failing_scorer) None w)
       = Py.Returns (ds, m) →
       fst (screen_studies studies criteria None None w) = Py.Returns (ds', m') →
       ds = ds').
Proof.
  intros H.
  destruct (screen_studies_calm [study_rct; study_cooking] criteria_t2d
              (Some failing_scorer) None true false fresh eq_refl eq_refl)
    as (m & Hrun & _).
  destruct (screen_studies_calm [study_rct; study_cooking] criteria_t2d
              None None false false fresh eq_refl eq_refl) as (m' & Hrun' & _).
  specialize (H [study_rct; study_cooking] criteria_t2d fresh _ m _ m'
                (f_equal fst Hrun) (f_equal fst Hrun')).
  vm_compute in H. discriminate H.
Qed.

(** ** The explanation of a decision *)

(** C9, as the code has it: [explain_decision] answers for every record
    id, known or not, with an explanation that repeats the id, the decision
    and the layer it was given, a fixed confidence of 0.92 and no evidence;
    it never reports an unknown id. *)
Theorem explain_decision_always_answers (id dec lay : string) :
  ∃ e, explain_decision id dec lay = Py.Returns e
       ∧ study_id e = id
       ∧ e_decision e = dec
       ∧ e_layer e = lay
       ∧ e_reasoning e = "Study " ++ id ++ " was " ++ dec ++ " at " ++ lay ++ " layer"
       ∧ e_confidence e = 0.92%Q
       ∧ evidence e = [].
Proof. eexists. split; [reflexivity|]. by repeat split. Qed.

(** C9 fails as stated: with no decision at all in the final set, the id
    999 is still explained. *)
Lemma unknown_id_is_explained :
  ¬ (∀ (final : list ScreeningDecision) (id dec lay : string),
       (∀ d, d ∈ final → pmid d ≠ Py.Str id) →
       ∀ e, explain_decision id dec lay ≠ Py.Returns e).
Proof.
  intros H.
  eapply (H [] "999" "INCLUDE" "rules").
  - intros d Hd. by apply elem_of_nil in Hd.
  - reflexivity.
Qed.

(** * Further properties *)

(** ** The text the rule gate reads *)

Lemma lower_app s1 s2 : Py.lower (s1 ++ s2) = Py.lower s1 ++ Py.lower s2.
Proof. induction s1 as [|c s1 IH]; simpl; [done | by rewrite IH]. Qed.

Lemma lower_ascii_not_upper c : is_upper (Py.lower_ascii c) = false.
Proof.
  unfold Py.lower_ascii, is_upper.
  destruct ((65 <=? nat_of_ascii c)%nat && (nat_of_ascii c <=? 90)%nat) eqn:E.
  - apply andb_true_iff in E as [Hlo Hhi].
    apply Nat.leb_le in Hlo, Hhi.
    rewrite nat_ascii_embedding by lia.
    apply andb_false_iff. right. apply Nat.leb_gt. lia.
  - exact E.
Qed.

Lemma lower_no_upper s : has_upper (Py.lower s) = false.
Proof.
  induction s as [|c s IH]; simpl; [done|].
  by rewrite lower_ascii_not_upper, IH.
Qed.

Lemma has_upper_app s1 s2 : has_upper (s1 ++ s2) = has_upper s1 || has_upper s2.
Proof.
  induction s1 as [|c s1 IH]; simpl; [done|]. by rewrite IH, orb_assoc.
Qed.

Lemma text_of_no_upper study : has_upper (text_of study) = false.
Proof.
  unfold text_of. by rewrite !has_upper_app, !lower_no_upper.
Qed.

Lemma capital_keyword_no_match kw study :
  has_upper kw = true → Py.contains kw (text_of study) = false.
Proof.
  intros Hkw. destruct (Py.contains kw (text_of study)) eqn:E; [|done].
  apply contains_spec in E as (pre & post & Htext).
  pose proof (text_of_no_upper study) as Hno.
  rewrite Htext, !has_upper_app, Hkw, orb_true_r in Hno. discriminate Hno.
Qed.

Lemma append_assoc (s1 s2 s3 : string) : (s1 ++ s2) ++ s3 = s1 ++ s2 ++ s3.
Proof.
  induction s1 as [|c s1 IH]; [done|].
  change (String c ((s1 ++ s2) ++ s3) = String c (s1 ++ s2 ++ s3)).
  by rewrite IH.
Qed.

Lemma substring_trans kw s t : substring kw s → substring s t → substring kw t.
Proof.
  intros (p1 & q1 & ->) (p2 & q2 & ->).
  exists (p2 ++ p1), (q1 ++ q2).
  by rewrite !append_assoc.
Qed.

Lemma mentions_mono table s t : substring s t → mentions table s → mentions table t.
Proof.
  intros Hst (g & kws & kw & Hg & Hkw & Hs).
  exists g, kws, kw. eauto using substring_trans.
Qed.

Lemma rule_includes_text self criteria study :
  rule_includes self criteria study = true
  ↔ mentions (disease_keywords self) (text_of study)
    ∧ mentions (trial_keywords self) (text_of study).
Proof.
  rewrite <- !group_match_spec. unfold rule_includes, _screen_rules.
  destruct (group_match (disease_keywords self) _);
    destruct (group_match (trial_keywords self) _); simpl; intuition congruence.
Qed.

Lemma get_insert_eq (study : dict) k v : Py.get (<[k := v]> study) k = v.
Proof. unfold Py.get. by rewrite lookup_insert_eq. Qed.

Lemma get_insert_ne (study : dict) k k' v :
  k ≠ k' → Py.get (<[k := v]> study) k' = Py.get study k'.
Proof. intros Hk. unfold Py.get. by rewrite lookup_insert_ne. Qed.

(** The rule gate has no negative keyword: for a record with ASCII title
    and abstract, ASCII text put in front of the title or after the
    abstract never turns an included record into an excluded one. *)
Theorem more_text_keeps_inclusion (self : SLRScreeningPipeline)
    (criteria study : dict) (before after : string) :
  is_ascii (Py.or_empty (Py.get study "title")) = true →
  is_ascii (Py.or_empty (Py.get study "abstract")) = true →
  is_ascii before = true →
  is_ascii after = true →
  rule_includes self criteria study = true →
  rule_includes self criteria
    (<["title" := Py.Str (before ++ Py.or_empty (Py.get study "title"))]>
       (<["abstract" := Py.Str (Py.or_empty (Py.get study "abstract") ++ after)]> study))
  = true.
Proof.
  intros _ _ _ _. rewrite !rule_includes_text.
  set (study' := <["title" := _]> _).
  assert (Hsub : substring (text_of study) (text_of study')).
  { exists (Py.lower before), (Py.lower after).
    unfold text_of, study'.
    rewrite get_insert_eq, get_insert_ne, get_insert_eq by done.
    cbn [Py.or_empty]. by rewrite !lower_app, !append_assoc. }
  intros [Hd Ht]. split; eapply mentions_mono; eauto.
Qed.

Lemma more_text_keeps_inclusion_witness :
  rule_includes create_screening_pipeline criteria_t2d
    (<["title" := Py.Str ("Protocol: " ++ Py.or_empty (Py.get study_rct "title"))]>
       (<["abstract" := Py.Str (Py.or_empty (Py.get study_rct "abstract") ++ "Follow-up.")]>
          study_rct))
  = true.
Proof.
  apply (more_text_keeps_inclusion create_screening_pipeline criteria_t2d study_rct);
    vm_compute; reflexivity.
Defined.

Lemma all_capital_no_match table study :
  all_capital table = true → group_match table (text_of study) = false.
Proof.
  intros Hcap. apply group_match_false. intros (g & kws & kw & Hg & Hkw & Hs).
  unfold all_capital in Hcap. rewrite forallb_forall in Hcap.
  apply list_elem_of_In, Hcap in Hg. cbn [snd] in Hg.
  rewrite forallb_forall in Hg. apply list_elem_of_In, Hg in Hkw.
  apply contains_spec in Hs.
  by rewrite (capital_keyword_no_match kw study Hkw) in Hs.
Qed.

(** The text is lower-cased, the keywords are not: a disease table whose
    keywords all hold a capital letter matches nothing, and every record is
    excluded for the disease with confidence 0.95. *)
Theorem capital_disease_table_excludes_all (self : SLRScreeningPipeline)
    (study criteria : dict) :
  all_capital (disease_keywords self) = true →
  _screen_rules self study criteria
  = Some (make_decision study "EXCLUDE" 0.95 RULES
            "Does not match disease criteria" "Screening").
Proof.
  intros Hcap. unfold _screen_rules.
  by rewrite (all_capital_no_match _ study Hcap).
Qed.

Lemma capital_disease_table_excludes_all_witness :
  _screen_rules capital_pipeline study_pcos criteria_t2d
  = Some (make_decision study_pcos "EXCLUDE" 0.95 RULES
            "Does not match disease criteria" "Screening").
Proof.
  apply (capital_disease_table_excludes_all capital_pipeline study_pcos criteria_t2d).
  reflexivity.
Defined.

Lemma contains_empty text : Py.contains "" text = true.
Proof. by destruct text. Qed.

Lemma has_empty_keyword_match table text :
  has_empty_keyword table = true → group_match table text = true.
Proof.
  unfold has_empty_keyword. rewrite existsb_exists.
  intros ([g kws] & Hg & Hkws). cbn [snd] in Hkws.
  apply existsb_exists in Hkws as (kw & Hkw & <-%String.eqb_eq).
  apply group_match_spec. exists g, kws, "".
  rewrite !list_elem_of_In. repeat split; [done..|].
  apply contains_spec, contains_empty.
Qed.

(** An empty keyword occurs in every text: a disease table that holds one
    lets every record through the disease gate. *)
Theorem empty_keyword_passes_all (self : SLRScreeningPipeline)
    (study criteria : dict) :
  has_empty_keyword (disease_keywords self) = true →
  passes_disease_gate self study criteria.
Proof.
  intros He. apply passes_disease_gate_iff. by apply has_empty_keyword_match.
Qed.

Lemma empty_keyword_passes_all_witness :
  passes_disease_gate lax_pipeline study_cooking criteria_t2d.
Proof.
  apply (empty_keyword_passes_all lax_pipeline study_cooking criteria_t2d).
  reflexivity.
Defined.

(** A record without text, its title and abstract missing, [None] or
    empty, is excluded for the disease by the shipped tables; the decision
    repeats the fields as they are stored, [None] for a missing key. *)
Theorem record_without_text_excluded (study criteria : dict) :
  Py.or_empty (Py.get study "title") = "" →
  Py.or_empty (Py.get study "abstract") = "" →
  _screen_rules create_screening_pipeline study criteria
  = Some (make_decision study "EXCLUDE" 0.95 RULES
            "Does not match disease criteria" "Screening").
Proof.
  intros Ht Ha. unfold _screen_rules, text_of. rewrite Ht, Ha. reflexivity.
Qed.

Lemma record_without_text_excluded_witness :
  _screen_rules create_screening_pipeline
    (<["title" := Py.None_]> (<["year" := Py.Str "2020"]> ∅)) criteria_t2d
  = Some {| pmid := Py.None_; title := Py.None_; abstract := Py.None_;
            decision := "EXCLUDE"; confidence := 0.95; layer := RULES;
            reasoning := "Does not match disease criteria";
            prisma_stage := "Screening" |}.
Proof.
  rewrite (record_without_text_excluded
             (<["title" := Py.None_]> (<["year" := Py.Str "2020"]> ∅)) criteria_t2d);
    vm_compute; reflexivity.
Defined.

(** ** The optional layers *)

(** The ML layer never changes the label or the PRISMA stage of a
    decision, leaves every decision that is not an INCLUDE as it is, and
    applying it twice is the same as applying it once; the semantic layer
    changes nothing. *)
Theorem layers_keep_label (self : SLRScreeningPipeline) (study : dict)
    (d : ScreeningDecision) (ml_model bert_model : option scorer) :
  decision (_screen_ml self study d ml_model) = decision d
  ∧ prisma_stage (_screen_ml self study d ml_model) = prisma_stage d
  ∧ (decision d ≠ "INCLUDE" → _screen_ml self study d ml_model = d)
  ∧ _screen_ml self study (_screen_ml self study d ml_model) ml_model
    = _screen_ml self study d ml_model
  ∧ _screen_bert self study d bert_model = d.
Proof.
  unfold _screen_ml, _screen_bert.
  destruct (String.eqb (decision d) "INCLUDE") eqn:E.
  - apply String.eqb_eq in E. repeat split; simpl; congruence.
  - apply String.eqb_neq in E. rewrite (proj2 (String.eqb_neq _ _) E).
    repeat split; congruence.
Qed.

Lemma layers_keep_label_witness :
  _screen_ml create_screening_pipeline study_rct excluded_by_hand (Some failing_scorer)
  = excluded_by_hand.
Proof.
  destruct (layers_keep_label create_screening_pipeline study_rct excluded_by_hand
              (Some failing_scorer) None) as (_ & _ & Hkeep & _).
  apply Hkeep. discriminate.
Defined.

(** ** The calls of a run *)

Lemma filter_record_calls self criteria (use_ml use_bert : bool) studies :
  List.filter is_enter_rules
    (flat_map (record_calls self criteria use_ml use_bert) studies)
  = map Enter_rules studies
  ∧ List.filter is_enter_ml
      (flat_map (record_calls self criteria use_ml use_bert) studies)
    = (if use_ml
       then map Enter_ml (List.filter (rule_includes self criteria) studies)
       else [])
  ∧ List.filter is_enter_bert
      (flat_map (record_calls self criteria use_ml use_bert) studies)
    = (if use_bert
       then map Enter_bert (List.filter (rule_includes self criteria) studies)
       else []).
Proof.
  induction studies as [|study rest (IHr & IHm & IHb)].
  - by destruct use_ml, use_bert.
  - cbn [flat_map]. rewrite !List.filter_app, IHr, IHm, IHb.
    unfold record_calls. cbn [List.filter map].
    destruct (rule_includes self criteria study), use_ml, use_bert; done.
Qed.

(** In a run in which the truth tests of the two plugin arguments return
    (an absent plugin tests false), the rule gate is entered once for every
    input record, in input order; the ML layer, when the ML plugin tests
    true, and the semantic layer, when the semantic plugin tests true, are
    entered once for every record that the rule gate includes, in input
    order, and not at all when their plugin is absent or tests false. For
    each record the order is rules, ML, semantic. *)
Theorem run_calls (studies : list dict) (criteria : dict)
    (ml_model bert_model : option scorer) (use_ml use_bert : bool) (w : world) :
  truth_of ml_model = Py.Returns use_ml →
  truth_of bert_model = Py.Returns use_bert →
  ∃ new_calls : list call,
    calls (snd (screen_studies studies criteria ml_model bert_model w))
    = (calls w ++ new_calls)%list
    ∧ new_calls = flat_map (record_calls (this w) criteria use_ml use_bert) studies
    ∧ List.filter is_enter_rules new_calls = map Enter_rules studies
    ∧ List.filter is_enter_ml new_calls
      = (if use_ml
         then map Enter_ml (List.filter (rule_includes (this w) criteria) studies)
         else [])
    ∧ List.filter is_enter_bert new_calls
      = (if use_bert
         then map Enter_bert (List.filter (rule_includes (this w) criteria) studies)
         else []).
Proof.
  intros Hml Hbert.
  destruct (screen_studies_calm studies criteria _ _ _ _ w Hml Hbert) as (m & Hrun & _).
  eexists. rewrite Hrun. cbn [snd calls]. split; [reflexivity|].
  split; [reflexivity|]. apply filter_record_calls.
Qed.

Lemma run_calls_witness :
  calls (snd (screen_studies [study_cooking; study_rct] criteria_t2d
                (Some echo_scorer) (Some empty_scorer) fresh))
  = [Enter_rules study_cooking; Enter_rules study_rct; Enter_ml study_rct].
Proof.
  destruct (run_calls [study_cooking; study_rct] criteria_t2d
              (Some echo_scorer) (Some empty_scorer) true false fresh)
    as (new_calls & Hcalls & -> & _); [reflexivity | reflexivity |].
  rewrite Hcalls. vm_compute. reflexivity.
Defined.

(** ** The metrics of a run *)

Lemma count_decision_cons tag d ds :
  count_decision tag (d :: ds)
  = ((if String.eqb (decision d) tag then 1 else 0) + count_decision tag ds)%Z.
Proof.
  unfold count_decision. cbn [List.filter].
  destruct (String.eqb (decision d) tag); cbn [List.length]; lia.
Qed.

Lemma uniform_decisions (c : Q) (ds : list ScreeningDecision) :
  Forall (fun d => decision d = "INCLUDE" ∧ confidence d = c) ds →
  count_decision "INCLUDE" ds = Z.of_nat (List.length ds)
  ∧ count_decision "EXCLUDE" ds = 0%Z
  ∧ (fold_right Qplus 0 (map confidence ds) == inject_Z (Z.of_nat (List.length ds)) * c)%Q.
Proof.
  induction 1 as [|d ds [Hd Hc] _ (IHi & IHe & IHs)].
  - repeat split; simpl; try ring.
  - rewrite !count_decision_cons, IHi, IHe, Hd.
    cbn [map fold_right List.length String.eqb Ascii.eqb Bool.eqb].
    repeat split; [lia|].
    rewrite IHs, Hc, Nat2Z.inj_succ, <- Z.add_1_r, inject_Z_plus.
    change (inject_Z 1) with 1%Q. ring.
Qed.

Lemma decision_for_uniform use_ml (studies : list dict) :
  Forall (fun d => decision d = "INCLUDE" ∧ confidence d = run_confidence use_ml)
    (map (decision_for use_ml) studies).
Proof.
  apply Forall_forall. intros d Hd.
  apply list_elem_of_In, in_map_iff in Hd as (study & <- & _).
  unfold run_confidence. by destruct use_ml.
Qed.

(** The metrics of a run that returns count the decisions returned, not
    the records handed in: with n records included by the rule gate,
    total_retrieved, total_screened and total_included are all n, and
    total_excluded, the false positives and the true negatives are 0,
    whatever the plugins; precision and accuracy are the same number; with
    nothing included every field is 0. *)
Theorem run_metrics (studies : list dict) (criteria : dict)
    (ml_model bert_model : option scorer) (w : world)
    (ds : list ScreeningDecision) (m : SLRMetrics) :
  fst (screen_studies studies criteria ml_model bert_model w) = Py.Returns (ds, m) →
  let n := Z.of_nat (List.length (List.filter (rule_includes (this w) criteria) studies)) in
  Z.of_nat (List.length ds) = n
  ∧ total_retrieved m = n ∧ total_screened m = n ∧ total_included m = n
  ∧ total_excluded m = 0%Z ∧ false_positives m = 0%Z ∧ true_negatives m = 0%Z
  ∧ (n = 0%Z → m = zero_metrics)
  ∧ precision m = accuracy m.
Proof.
  intros Hret n. subst n.
  apply run_returns_inv in Hret as (use_ml & -> & _ & Hm).
  pose proof (decision_for_uniform use_ml
                (List.filter (rule_includes (this w) criteria) studies)) as Hall.
  rewrite length_map.
  assert (Hlen : List.length (map (decision_for use_ml)
                   (List.filter (rule_includes (this w) criteria) studies))
                 = List.length (List.filter (rule_includes (this w) criteria) studies))
    by apply length_map.
  set (ds := map (decision_for use_ml) _) in *.
  set (self := with_decisions (this w) ds) in *.
  change ds with (decisions self) in Hall, Hlen.
  destruct (uniform_decisions _ _ Hall) as (Hi & He & _).
  rewrite Hlen in Hi.
  destruct (decisions self) as [|d0 ds0] eqn:Eds.
  - unfold _compute_metrics in Hm. rewrite Eds in Hm. injection Hm as <-.
    rewrite <- Hlen. cbn. repeat split; done.
  - assert (Hne : decisions self ≠ []) by (rewrite Eds; discriminate).
    rewrite <- Eds in *.
    rewrite (compute_metrics_inv self m Hne Hm).
    cbn [total_included total_excluded total_screened total_retrieved true_positives
         false_positives true_negatives false_negatives precision recall accuracy
         f1_score].
    rewrite Hi, He.
    repeat split; try lia; try reflexivity.
    intros Hn. rewrite <- Hlen, Eds in Hn. discriminate Hn.
Qed.

Lemma run_metrics_witness :
  ∃ ds m,
    fst (screen_studies [study_rct; study_cooking; study_pcos] criteria_t2d
           (Some failing_scorer) None fresh) = Py.Returns (ds, m)
    ∧ total_retrieved m = 2%Z ∧ total_included m = 2%Z ∧ total_excluded m = 0%Z.
Proof.
  destruct (screen_studies_calm [study_rct; study_cooking; study_pcos] criteria_t2d
              (Some failing_scorer) None true false fresh eq_refl eq_refl)
    as (m & Hrun & _).
  eexists _, m. split; [by rewrite Hrun|].
  destruct (run_metrics [study_rct; study_cooking; study_pcos] criteria_t2d
              (Some failing_scorer) None fresh
              (map (decision_for true)
                 (List.filter (rule_includes (this fresh) criteria_t2d)
                    [study_rct; study_cooking; study_pcos])) m)
    as (_ & Hr & _ & Hi & He & _).
  - by rewrite Hrun.
  - repeat split; [rewrite Hr | rewrite Hi | exact He]; vm_compute; reflexivity.
Defined.




(** ** The export of the decisions *)

Lemma decision_dict_keys d : dom (decision_dict d) = exported_keys.
Proof.
  unfold decision_dict, exported_keys.
  rewrite !dom_insert_L, dom_empty_L. set_solver.
Qed.

(** [get_decisions] gives one dictionary per decision, in order, with
    exactly the six keys pmid, title, decision, confidence, layer and
    reasoning (the abstract and the PRISMA stage are left out); the layer
    is exported by its lower-case value. *)
Theorem get_decisions_entries (self : SLRScreeningPipeline) :
  List.length (get_decisions self) = List.length (decisions self)
  ∧ ∀ i d, decisions self !! i = Some d →
      ∃ e, get_decisions self !! i = Some e
           ∧ dom e = exported_keys
           ∧ e !! "pmid" = Some (export (pmid d))
           ∧ e !! "title" = Some (export (title d))
           ∧ e !! "decision" = Some (E_str (decision d))
           ∧ e !! "confidence" = Some (E_float (confidence d))
           ∧ e !! "layer" = Some (E_str (layer_value (layer d)))
           ∧ e !! "reasoning" = Some (E_str (reasoning d))
           ∧ e !! "abstract" = None
           ∧ e !! "prisma_stage" = None.
Proof.
  unfold get_decisions. split; [apply length_map|].
  intros i d Hi. exists (decision_dict d). split.
  - by rewrite list_lookup_fmap, Hi.
  - split; [apply decision_dict_keys|]. unfold decision_dict.
    repeat split; by simplify_map_eq.
Qed.

Lemma get_decisions_entries_witness :
  ∃ e, get_decisions two_decisions !! 1%nat = Some e
       ∧ dom e = exported_keys
       ∧ e !! "decision" = Some (E_str "EXCLUDE")
       ∧ e !! "layer" = Some (E_str "rules")
       ∧ e !! "abstract" = None.
Proof.
  destruct (get_decisions_entries two_decisions) as [_ H].
  destruct (H 1%nat
              (make_decision study_cooking "EXCLUDE" 0.95 RULES
                 "Does not match disease criteria" "Screening") eq_refl)
    as (e & He & Hdom & _ & _ & Hdec & _ & Hlay & _ & Habs & _).
  exists e. repeat split; assumption.
Defined.

(** After a run in which the truth tests of the two plugin arguments
    return, the exported list has one entry for each record that the rule
    gate includes; every entry says INCLUDE, and its layer and confidence
    are those of the last layer: ml and 0.92 when the ML plugin tests true,
    rules and 0.90 when it is absent or tests false. *)
Theorem run_export (studies : list dict) (criteria : dict)
    (ml_model bert_model : option scorer) (use_ml use_bert : bool) (w : world) :
  truth_of ml_model = Py.Returns use_ml →
  truth_of bert_model = Py.Returns use_bert →
  let self := this (snd (screen_studies studies criteria ml_model bert_model w)) in
  List.length (get_decisions self)
  = List.length (List.filter (rule_includes (this w) criteria) studies)
  ∧ ∀ e, e ∈ get_decisions self →
      e !! "decision" = Some (E_str "INCLUDE")
      ∧ e !! "layer" = Some (E_str (if use_ml then "ml" else "rules"))
      ∧ e !! "confidence" = Some (E_float (run_confidence use_ml)).
Proof.
  intros Hml Hbert.
  destruct (screen_studies_calm studies criteria _ _ _ _ w Hml Hbert) as (m & Hrun & _).
  rewrite Hrun. cbn [snd this]. unfold get_decisions.
  change (decisions (with_decisions (this w) ?ds)) with ds.
  rewrite !length_map. split; [done|].
  intros e He. apply list_elem_of_In in He. rewrite map_map in He.
  apply in_map_iff in He as (study & <- & _).
  unfold run_confidence, decision_dict.
  destruct use_ml; repeat split; by simplify_map_eq.
Qed.

Lemma run_export_witness :
  List.length
    (get_decisions
       (this (snd (screen_studies [study_rct; study_cooking] criteria_t2d
                     (Some empty_scorer) (Some echo_scorer) fresh))))
  = 1%nat
  ∧ ∀ e,
      e ∈ get_decisions
            (this (snd (screen_studies [study_rct; study_cooking] criteria_t2d
                          (Some empty_scorer) (Some echo_scorer) fresh))) →
      e !! "layer" = Some (E_str "rules").
Proof.
  destruct (run_export [study_rct; study_cooking] criteria_t2d
              (Some empty_scorer) (Some echo_scorer) false true fresh)
    as [Hlen Hall]; [reflexivity | reflexivity |].
  split; [rewrite Hlen; vm_compute; reflexivity|].
  intros e He. by destruct (Hall e He) as (_ & Hlayer & _).
Defined.

(** ** Edge cases of the aggregator *)

Lemma count_counted ds :
  (count_decision "INCLUDE" ds + count_decision "EXCLUDE" ds
   = Z.of_nat (List.length (List.filter counted ds)))%Z.
Proof.
  induction ds as [|d ds IH]; [done|].
  rewrite !count_decision_cons. cbn [List.filter]. unfold counted at 1.
  destruct (String.eqb (decision d) "INCLUDE") eqn:Ei.
  - apply String.eqb_eq in Ei. rewrite Ei. cbn [orb List.length].
    change (String.eqb "INCLUDE" "EXCLUDE") with false. lia.
  - destruct (String.eqb (decision d) "EXCLUDE"); cbn [orb List.length]; lia.
Qed.

(** The counts only see the labels INCLUDE and EXCLUDE: total_screened is
    the number of decisions with one of these two labels, so it falls short
    of the number of decisions when a decision has another label, while the
    rates average the confidence of all decisions. *)
Theorem totals_skip_other_labels (self : SLRScreeningPipeline) (m : SLRMetrics) :
  _compute_metrics self = Py.Returns m →
  total_screened m = Z.of_nat (List.length (List.filter counted (decisions self)))
  ∧ total_retrieved m = total_screened m
  ∧ (total_screened m <= Z.of_nat (List.length (decisions self)))%Z
  ∧ (decisions self ≠ [] → (precision m == mean_confidence (decisions self))%Q).
Proof.
  intros Hm.
  assert (Hle : (Z.of_nat (List.length (List.filter counted (decisions self)))
                 <= Z.of_nat (List.length (decisions self)))%Z)
    by (apply Nat2Z.inj_le, filter_length_le).
  destruct (decisions self) as [|d ds] eqn:Eds.
  - unfold _compute_metrics in Hm. rewrite Eds in Hm. injection Hm as <-.
    repeat split; done.
  - assert (Hne : decisions self ≠ []) by (rewrite Eds; discriminate).
    rewrite <- Eds in *.
    rewrite (compute_metrics_inv self m Hne Hm).
    cbn [total_screened total_retrieved precision]. rewrite count_counted.
    repeat split; try done. intros _. by apply avg_confidence_mean.
Qed.

Lemma totals_skip_other_labels_witness :
  ∃ m, _compute_metrics with_maybe = Py.Returns m
       ∧ total_screened m = 1%Z
       ∧ List.length (decisions with_maybe) = 2%nat
       ∧ (precision m == 0.7)%Q.
Proof.
  eexists. split; [vm_compute; reflexivity|].
  edestruct (totals_skip_other_labels with_maybe) as (Ht & _ & _ & Hp);
    [vm_compute; reflexivity|].
  split; [exact Ht|]. split; [reflexivity|].
  rewrite Hp by discriminate. reflexivity.
Defined.

Lemma int_floor q : (0 <= q)%Q → Py.int q = Qfloor q.
Proof.
  destruct q as [a b]. unfold Qle, Py.int, Qfloor. simpl. intros Ha.
  apply Z.quot_div_nonneg; lia.
Qed.

Lemma int_split (n : Z) (a : Q) :
  (0 <= n)%Z → (0 <= a <= 1)%Q →
  (n - 1 <= Py.int (inject_Z n * a) + Py.int (inject_Z n * (1 - a)) <= n)%Z.
Proof.
  intros Hn [Hlo Hhi].
  assert (Hq : (0 <= inject_Z n)%Q)
    by (change 0%Q with (inject_Z 0); by rewrite <- Zle_Qle).
  assert (Hx : (0 <= inject_Z n * a)%Q) by nra.
  assert (Hy : (0 <= inject_Z n * (1 - a))%Q) by nra.
  rewrite (int_floor _ Hx), (int_floor _ Hy).
  pose proof (Qfloor_le (inject_Z n * a)) as Hx1.
  pose proof (Qlt_floor (inject_Z n * a)) as Hx2.
  pose proof (Qfloor_le (inject_Z n * (1 - a))) as Hy1.
  pose proof (Qlt_floor (inject_Z n * (1 - a))) as Hy2.
  rewrite inject_Z_plus in Hx2, Hy2. change (inject_Z 1) with 1%Q in Hx2, Hy2.
  split.
  - assert (H : (inject_Z n
                 < inject_Z (Qfloor (inject_Z n * a) + Qfloor (inject_Z n * (1 - a)) + 2))%Q).
    { rewrite !inject_Z_plus. change (inject_Z 2) with 2%Q. lra. }
    rewrite <- Zlt_Qlt in H. lia.
  - rewrite Zle_Qle, inject_Z_plus. lra.
Qed.

(** The confusion counts are truncated one by one, so they need not add up
    to the totals: for well-formed decisions the true positives and the
    false negatives together are the number of inclusions or one less, and
    the true negatives and the false positives together are the number of
    exclusions or one less. *)
Theorem confusion_counts_short_by_one (self : SLRScreeningPipeline) (m : SLRMetrics) :
  well_formed (decisions self) →
  _compute_metrics self = Py.Returns m →
  (total_included m - 1 <= true_positives m + false_negatives m <= total_included m)%Z
  ∧ (total_excluded m - 1 <= true_negatives m + false_positives m <= total_excluded m)%Z.
Proof.
  intros Hwf Hm.
  destruct (decisions self) as [|d ds] eqn:Eds.
  - unfold _compute_metrics in Hm. rewrite Eds in Hm. injection Hm as <-.
    simpl. lia.
  - assert (Hne : decisions self ≠ []) by (rewrite Eds; discriminate).
    rewrite <- Eds in *.
    pose proof (avg_confidence_bounds _ Hne Hwf) as Havg.
    rewrite (compute_metrics_inv self m Hne Hm).
    cbn [total_included total_excluded true_positives false_positives true_negatives
         false_negatives].
    split; apply int_split; auto using count_decision_nonneg.
Qed.

Lemma confusion_counts_short_by_one_witness :
  ∃ m, _compute_metrics three_halves = Py.Returns m
       ∧ total_included m = 3%Z
       ∧ (true_positives m + false_negatives m = 2)%Z.
Proof.
  eexists. split; [vm_compute; reflexivity|].
  edestruct (confusion_counts_short_by_one three_halves) as [_ _];
    [reflexivity | vm_compute; reflexivity |].
  split; reflexivity.
Defined.

(** ** The conversational controller *)

Ltac agent_unfold :=
  unfold Agent.process_user_input, Agent._handle_initial_input,
    Agent._handle_criteria_input, Agent._handle_status_query, Agent.start_slr_job,
    Agent._create_message, Agent.set_disease, Agent.set_study_type,
    Agent.set_criteria, Agent.set_state, Agent.set_job_id, Agent.get_self,
    mbind, Agent.C_bind, mret, Agent.C_ret.

Ltac agent_step :=
  cbn [Agent.state Agent.criteria Agent.conversation_history Agent.current_job_id
       Agent.disease Agent.study_type Agent.with_disease Agent.with_study_type
       Agent.truthy negb String.eqb Ascii.eqb Bool.eqb fst snd
       Agent.role Agent.content Agent.data Agent.action Agent.job_id].

Ltac agent_cases :=
  agent_unfold; agent_step;
  repeat (match goal with
          | |- context [if ?b then _ else _] => destruct b eqn:?
          end; agent_step).

Lemma process_message hash_criteria user_input self :
  let (msg, self') := Agent.process_user_input hash_criteria user_input self in
  Agent.conversation_history self' = (Agent.conversation_history self ++ [msg])%list
  ∧ Agent.role msg = "assistant"
  ∧ Agent.job_id msg = Agent.current_job_id self'.
Proof.
  destruct self as [st c h j]. destruct st; agent_cases; done.
Qed.

(** Every call of [process_user_input] answers with one message of the
    assistant, appends exactly this message to the conversation history,
    and stamps it with the job id the controller has after the call. *)
Theorem process_appends_one_message (hash_criteria : Agent.SLRCriteria → Z)
    (user_input : string) (self : Agent.SLRAgentController) :
  let (msg, self') := Agent.process_user_input hash_criteria user_input self in
  Agent.conversation_history self' = (Agent.conversation_history self ++ [msg])%list
  ∧ Agent.role msg = "assistant"
  ∧ Agent.job_id msg = Agent.current_job_id self'.
Proof. apply process_message. Qed.

(** Once a job runs the conversation cannot leave it: in state EXECUTING
    an input changes neither the state, the criteria nor the job id and
    the answer carries no data and no action. The states VALIDATING,
    COMPLETED and ERROR are dead ends in the same way, with a fixed answer.
    No input ever leads back to IDLE. *)
Theorem executing_is_absorbing (hash_criteria : Agent.SLRCriteria → Z)
    (user_input : string) (self : Agent.SLRAgentController) :
  let (msg, self') := Agent.process_user_input hash_criteria user_input self in
  (Agent.state self = Agent.EXECUTING ∨ Agent.state self = Agent.VALIDATING
   ∨ Agent.state self = Agent.COMPLETED ∨ Agent.state self = Agent.ERROR →
     Agent.state self' = Agent.state self
     ∧ Agent.criteria self' = Agent.criteria self
     ∧ Agent.current_job_id self' = Agent.current_job_id self
     ∧ Agent.data msg = None ∧ Agent.action msg = None)
  ∧ (Agent.state self ≠ Agent.EXECUTING → Agent.state self ≠ Agent.IDLE →
     Agent.state self ≠ Agent.CRITERIA_INTAKE →
     Agent.content msg = "Session in unexpected state. Please restart.")
  ∧ Agent.state self' ≠ Agent.IDLE.
Proof.
  destruct self as [st c h j].
  destruct st; agent_cases; repeat split; try done; intuition discriminate.
Qed.

Lemma executing_is_absorbing_witness :
  Agent.state (snd (Agent.process_user_input Agent.sample_hash "start again"
                      error_controller)) = Agent.ERROR
  ∧ Agent.content (fst (Agent.process_user_input Agent.sample_hash "start again"
                          error_controller))
    = "Session in unexpected state. Please restart.".
Proof.
  pose proof (executing_is_absorbing Agent.sample_hash "start again" error_controller)
    as H.
  destruct (Agent.process_user_input Agent.sample_hash "start again" error_controller)
    as [msg self'].
  destruct H as (Hstuck & Hmsg & _). cbn [fst snd]. split.
  - apply Hstuck. right. right. right. reflexivity.
  - apply Hmsg; discriminate.
Defined.

(** A job starts only on a confirmed input: from IDLE or CRITERIA_INTAKE
    the answer has the action start_job exactly when the state becomes
    EXECUTING, and then the study type was already set before this input,
    a disease is set, the input says yes, confirm or start, the job id is
    slr_ followed by a number from 0 to 9999, and the answer carries the
    criteria and the job id. Otherwise the state is CRITERIA_INTAKE and the
    job id is unchanged. *)
Theorem job_start_conditions (hash_criteria : Agent.SLRCriteria → Z)
    (user_input : string) (self : Agent.SLRAgentController) :
  Agent.state self = Agent.IDLE ∨ Agent.state self = Agent.CRITERIA_INTAKE →
  let (msg, self') := Agent.process_user_input hash_criteria user_input self in
  (Agent.action msg = Some "start_job" ↔ Agent.state self' = Agent.EXECUTING)
  ∧ (Agent.state self' = Agent.EXECUTING →
       Agent.truthy (Agent.study_type (Agent.criteria self)) = true
       ∧ Agent.study_type (Agent.criteria self') = Agent.study_type (Agent.criteria self)
       ∧ Agent.truthy (Agent.disease (Agent.criteria self')) = true
       ∧ confirms user_input = true
       ∧ (∃ n, (0 <= n < 10000)%Z
               ∧ Agent.current_job_id self' = Some ("slr_" ++ pretty n))
       ∧ Agent.data msg
         = Some {| Agent.data_criteria := Agent.criteria self';
                   Agent.data_job_id := Agent.current_job_id self' |})
  ∧ (Agent.state self' ≠ Agent.EXECUTING →
       Agent.state self' = Agent.CRITERIA_INTAKE
       ∧ Agent.current_job_id self' = Agent.current_job_id self
       ∧ Agent.data msg = None).
Proof.
  intros Hst. destruct self as [st c h j]. cbn [Agent.state] in Hst.
  assert (Hmod : ∀ c', (0 <= hash_criteria c' `mod` 10000 < 10000)%Z)
    by (intros c'; apply Z.mod_pos_bound; lia).
  unfold confirms.
  destruct Hst as [-> | ->]; agent_cases;
    repeat split; try done; try discriminate;
    try (intros; discriminate);
    try (by eexists; split; [apply Hmod | reflexivity]);
    try (by destruct (Agent.truthy _));
    try (by rewrite ?negb_false_iff in *; subst;
            repeat match goal with H : _ = _ |- _ => rewrite H end).
Qed.

Lemma job_start_conditions_witness :
  Agent.action (fst (Agent.process_user_input Agent.sample_hash "Yes, please"
                       ready_controller)) = Some "start_job"
  ∧ Agent.state (snd (Agent.process_user_input Agent.sample_hash "Yes, please"
                        ready_controller)) = Agent.EXECUTING
  ∧ confirms "Yes, please" = true.
Proof.
  pose proof (job_start_conditions Agent.sample_hash "Yes, please" ready_controller)
    as H.
  destruct (Agent.process_user_input Agent.sample_hash "Yes, please" ready_controller)
    as [msg self'] eqn:E.
  destruct H as (Hiff & Hrun & _); [right; reflexivity|].
  assert (Hs : Agent.state self' = Agent.EXECUTING).
  { apply (f_equal snd) in E. cbn [snd] in E. rewrite <- E. vm_compute. reflexivity. }
  cbn [fst snd]. split; [by apply Hiff|]. split; [exact Hs|].
  by destruct (Hrun Hs) as (_ & _ & _ & Hc & _).
Defined.

Lemma sound_init : sound Agent.init.
Proof.
  unfold sound. cbn. repeat split; auto; try discriminate; try done.
Qed.

Ltac sound_finish Ht :=
  cbn [Agent.population Agent.intervention Agent.comparison Agent.outcome
       Agent.publication_years Agent.language Agent.custom_query];
  repeat split; try discriminate; try assumption; try reflexivity;
  try (intros H; by destruct H);
  try (by auto 8);
  try (destruct Ht as [-> | ->]; [discriminate | reflexivity]);
  try (match goal with
       | H : negb (Agent.truthy ?d) = false |- ?d ≠ None =>
           intros ->; discriminate H
       end).

Lemma sound_step hash_criteria user_input self :
  sound self → sound (snd (Agent.process_user_input hash_criteria user_input self)).
Proof.
  unfold sound. destruct self as [st [d p i c o t y l q] h j].
  cbn [Agent.state Agent.criteria Agent.current_job_id Agent.disease Agent.study_type
       Agent.population Agent.intervention Agent.comparison Agent.outcome
       Agent.publication_years Agent.language Agent.custom_query].
  intros (Hst & Hd & Ht & -> & -> & -> & -> & -> & -> & -> & Hj & He).
  destruct Hst as [-> | [-> | ->]].
  - assert (j = None) as -> by (destruct j; [by destruct Hj as [_ Hj]; discriminate Hj|done]).
    clear Hj He. agent_cases; sound_finish Ht.
  - assert (j = None) as -> by (destruct j; [by destruct Hj as [_ Hj]; discriminate Hj|done]).
    clear Hj He. agent_cases; sound_finish Ht.
  - destruct (He eq_refl) as [Hd' ->]. destruct Hj as [Hj _]. specialize (Hj eq_refl).
    clear He. agent_cases; sound_finish Ht.
Qed.

Lemma history_step hash_criteria user_input self :
  List.length (Agent.conversation_history
                 (snd (Agent.process_user_input hash_criteria user_input self)))
  = S (List.length (Agent.conversation_history self)).
Proof.
  pose proof (process_message hash_criteria user_input self) as H.
  destruct (Agent.process_user_input hash_criteria user_input self) as [msg self'].
  cbn [snd]. destruct H as (-> & _). rewrite length_app. simpl. lia.
Qed.

Lemma converse_sound hash_criteria inputs self :
  sound self →
  sound (Agent.converse hash_criteria inputs self)
  ∧ List.length (Agent.conversation_history (Agent.converse hash_criteria inputs self))
    = (List.length (Agent.conversation_history self) + List.length inputs)%nat.
Proof.
  revert self. induction inputs as [|user_input rest IH]; intros self Hs.
  - simpl. split; [done | lia].
  - cbn [Agent.converse List.length].
    destruct (IH _ (sound_step hash_criteria user_input self Hs)) as [Hs' Hlen].
    split; [done|]. rewrite Hlen, history_step. lia.
Qed.

(** Whatever the user types, a conversation that starts from a new
    controller stays within three of the six states (IDLE, CRITERIA_INTAKE,
    EXECUTING); the disease is unset or one of Type 2 Diabetes, Diabetes
    and PCOS; the study type is unset or randomized controlled trial, and
    no other criterion is ever set; a job id is present exactly in state
    EXECUTING, where disease and study type are set; and the history holds
    one message for each input. *)
Theorem conversation_invariant (hash_criteria : Agent.SLRCriteria → Z)
    (inputs : list string) :
  sound (Agent.converse hash_criteria inputs Agent.init)
  ∧ List.length (Agent.conversation_history
                   (Agent.converse hash_criteria inputs Agent.init))
    = List.length inputs.
Proof.
  destruct (converse_sound hash_criteria inputs Agent.init sound_init) as [Hs Hlen].
  split; [exact Hs | exact Hlen].
Qed.

(** A new controller never starts a job on its first input, whatever it
    says: the state is CRITERIA_INTAKE and no job id is set; two inputs are
    enough. *)
Theorem first_input_starts_no_job (hash_criteria : Agent.SLRCriteria → Z)
    (user_input : string) :
  let (msg, self') := Agent.process_user_input hash_criteria user_input Agent.init in
  Agent.state self' = Agent.CRITERIA_INTAKE
  ∧ Agent.current_job_id self' = None
  ∧ Agent.action msg = None
  ∧ Agent.state (Agent.converse hash_criteria ["pcos"; "confirm"] Agent.init)
    = Agent.EXECUTING.
Proof.
  agent_cases; repeat split; try done; vm_compute; reflexivity.
Qed.

Lemma process_after_history hash_criteria user_input earlier self :
  Agent.process_user_input hash_criteria user_input (after_history earlier self)
  = (fst (Agent.process_user_input hash_criteria user_input self),
     after_history earlier
       (snd (Agent.process_user_input hash_criteria user_input self))).
Proof.
  destruct self as [st c h j]. unfold after_history.
  destruct st; agent_cases; cbn [Agent.state Agent.criteria Agent.conversation_history
    Agent.current_job_id]; by rewrite <- ?app_assoc.
Qed.

Lemma converse_after_history hash_criteria inputs earlier self :
  Agent.converse hash_criteria inputs (after_history earlier self)
  = after_history earlier (Agent.converse hash_criteria inputs self).
Proof.
  revert self. induction inputs as [|user_input rest IH]; intros self; [done|].
  cbn [Agent.converse]. rewrite process_after_history. cbn [snd]. apply IH.
Qed.

(** [reset_session] forgets everything but its own answer: whatever the
    controller was, it is afterwards a new controller whose history holds
    the reset message alone (with no job id), and the conversation that
    follows runs exactly as on a new controller, with that one message in
    front of the history. *)
Theorem reset_restarts (hash_criteria : Agent.SLRCriteria → Z)
    (inputs : list string) (self : Agent.SLRAgentController) :
  let (msg, self') := Agent.reset_session self in
  self' = after_history [msg] Agent.init
  ∧ Agent.job_id msg = None
  ∧ Agent.content msg = "Session reset. Start a new SLR job with 'start'"
  ∧ Agent.converse hash_criteria inputs self'
    = after_history [msg] (Agent.converse hash_criteria inputs Agent.init).
Proof.
  unfold Agent.reset_session, Agent._create_message.
  cbn [Agent.state Agent.criteria Agent.conversation_history Agent.current_job_id].
  repeat split. apply (converse_after_history hash_criteria inputs [_] Agent.init).
Qed.

(** ** The batches of the PubMed client *)

Lemma batches_from (uids : list string) (batch_size : Z) (fuel : nat) (i : Z) :
  (0 < batch_size)%Z → (0 <= i)%Z →
  (Z.of_nat (List.length uids) - i <= Z.of_nat fuel)%Z →
  let bs := map (fun k => PubMed.slice uids k batch_size)
              (PubMed.range_from fuel i (Z.of_nat (List.length uids)) batch_size) in
  concat bs = drop (Z.to_nat i) uids
  ∧ Forall (fun b => (1 <= List.length b)%nat
                     ∧ (Z.of_nat (List.length b) <= batch_size)%Z) bs.
Proof.
  intros Hb. revert i. induction fuel as [|fuel IH]; intros i Hi Hfuel.
  - simpl. split; [|constructor]. symmetry. apply drop_ge. lia.
  - cbn [PubMed.range_from].
    destruct (i <? Z.of_nat (List.length uids))%Z eqn:E.
    + apply Z.ltb_lt in E.
      destruct (IH (i + batch_size)%Z) as [IHc IHf]; [lia | lia |].
      cbn [map concat]. split.
      * rewrite IHc. unfold PubMed.slice.
        replace (Z.to_nat (i + batch_size)) with (Z.to_nat i + Z.to_nat batch_size)%nat
          by lia.
        rewrite <- drop_drop. apply take_drop.
      * constructor; [|exact IHf]. unfold PubMed.slice.
        rewrite length_take, length_drop. lia.
    + apply Z.ltb_ge in E. simpl. split; [|constructor].
      symmetry. apply drop_ge. lia.
Qed.

(** With a positive batch size the batches requested by [_fetch_studies]
    are the list of ids cut in order into pieces: put together again they
    give the ids back, none lost, repeated or moved, and every batch holds
    at least one id and at most batch_size ids. *)
Theorem batches_cover_uids (batch_size : Z) (uids : list string) :
  (0 < batch_size)%Z →
  ∃ bs, PubMed.batches batch_size uids = Py.Returns bs
        ∧ concat bs = uids
        ∧ Forall (fun b => (1 <= List.length b)%nat
                           ∧ (Z.of_nat (List.length b) <= batch_size)%Z) bs.
Proof.
  intros Hb. unfold PubMed.batches, PubMed.range.
  destruct (batch_size =? 0)%Z eqn:E0; [apply Z.eqb_eq in E0; lia|].
  destruct (batch_size <? 0)%Z eqn:E1; [apply Z.ltb_lt in E1; lia|].
  eexists. split; [reflexivity|].
  destruct (batches_from uids batch_size (Z.to_nat (Z.of_nat (List.length uids))) 0)
    as [Hc Hf]; [lia | lia | lia |].
  split; [exact Hc | exact Hf].
Qed.

Lemma batches_cover_uids_witness :
  PubMed.batches 2 ["11"; "12"; "13"; "14"; "15"]
  = Py.Returns [["11"; "12"]; ["13"; "14"]; ["15"]].
Proof.
  destruct (batches_cover_uids 2 ["11"; "12"; "13"; "14"; "15"]) as (bs & _ & _ & _);
    [lia|].
  vm_compute. reflexivity.
Defined.

(** A batch size that is not positive fetches nothing: with batch size 0
    the loop raises ValueError before the first request, and with a
    negative batch size it makes no request at all, so every id is dropped
    without an error. *)
Theorem batches_without_positive_size (batch_size : Z) (uids : list string) :
  (batch_size = 0%Z → PubMed.batches batch_size uids = Py.Raises "ValueError")
  ∧ ((batch_size < 0)%Z → PubMed.batches batch_size uids = Py.Returns []).
Proof.
  unfold PubMed.batches, PubMed.range. split.
  - by intros ->.
  - intros Hneg.
    destruct (batch_size =? 0)%Z eqn:E0; [apply Z.eqb_eq in E0; lia|].
    by rewrite (proj2 (Z.ltb_lt _ _) Hneg).
Qed.

Lemma batches_without_positive_size_witness :
  PubMed.batches (-100) ["11"; "12"; "13"] = Py.Returns [].
Proof.
  apply (batches_without_positive_size (-100) ["11"; "12"; "13"]). lia.
Defined.

(** ** The decisions of a run, field by field *)

(** The decisions returned by a run in which the truth tests of the two
    plugin arguments return are, in input order, one for each record that
    the rule gate includes; each repeats the pmid, title and abstract
    stored in its record ([None] for a missing key), says INCLUDE at stage
    Inclusion, and carries the layer, confidence and reasoning of the ML
    layer when the ML plugin tests true and of the rule gate when it is
    absent or tests false; a semantic plugin leaves no trace in them. *)
Theorem run_decisions (studies : list dict) (criteria : dict)
    (ml_model bert_model : option scorer) (use_ml use_bert : bool) (w : world) :
  truth_of ml_model = Py.Returns use_ml →
  truth_of bert_model = Py.Returns use_bert →
  ∃ m,
    fst (screen_studies studies criteria ml_model bert_model w)
    = Py.Returns
        (map (fun study =>
                {| pmid := Py.get study "pmid";
                   title := Py.get study "title";
                   abstract := Py.get study "abstract";
                   decision := "INCLUDE";
                   confidence := run_confidence use_ml;
                   layer := if use_ml then ML else RULES;
                   reasoning := if use_ml
                                then "ML model: High likelihood of relevance"
                                else "Matches disease and trial criteria";
                   prisma_stage := "Inclusion" |})
             (List.filter (rule_includes (this w) criteria) studies),
         m).
Proof.
  intros Hml Hbert.
  destruct (screen_studies_calm studies criteria _ _ _ _ w Hml Hbert) as (m & Hrun & _).
  exists m. rewrite Hrun. cbn [fst].
  do 2 f_equal. apply map_ext. intros study.
  unfold run_confidence, decision_for, make_decision. by destruct use_ml.
Qed.

Lemma run_decisions_witness :
  ∃ m,
    fst (screen_studies [study_cooking; study_rct] criteria_t2d
           (Some empty_scorer) (Some failing_scorer) fresh)
    = Py.Returns
        ([ {| pmid := Py.Str "1";
              title := Py.Str "RCT of type 2 diabetes treatment";
              abstract := Py.Str "";
              decision := "INCLUDE";
              confidence := 0.90;
              layer := RULES;
              reasoning := "Matches disease and trial criteria";
              prisma_stage := "Inclusion" |} ], m).
Proof.
  destruct (run_decisions [study_cooking; study_rct] criteria_t2d
              (Some empty_scorer) (Some failing_scorer) false true fresh)
    as (m & Hm); [reflexivity | reflexivity |].
  exists m. rewrite Hm. vm_compute. reflexivity.
Defined.
